(** * vlaunch: the virtual-machine lifecycle monitor

    A shallow embedding of package [vm] of vlaunch: the observer
    registry, the event-subscription loop ([passiveListenerLoop]), the
    polling loop ([pollingLoop]) and the teardown sequence ([Release]).

    The hypervisor binding (package [vbox]) is an external collaborator.
    Every call into it is answered by a script: a value that fixes what
    the call returns.  Calls whose occurrence or order matters are
    recorded in a log of [Call]s, so that a run of a function is a pair
    of a log and a control-flow result. *)

From Stdlib Require Import ZArith Lia.
From stdpp Require Import base option list strings gmap.

Local Open Scope string_scope.
Local Open Scope Z_scope.
Local Open Scope list_scope.

(** ** Go values *)

(** A non-nil Go [error], identified by its message. *)
Definition error := string.

(** A Go result pair [(v, err)] that the caller tests with
    [if err != nil]. *)
Inductive result (A : Type) : Type :=
| Ok (a : A)
| Err (e : error).
Arguments Ok {A} a.
Arguments Err {A} e.

(** [time.Duration] counts nanoseconds. *)
Definition Millisecond : Z := 1000000.
Definition Second : Z := 1000 * Millisecond.

(** ** The parts of the hypervisor binding the monitor looks at *)

(** [vbox.MachineState_*]: the monitor only ever compares a state with
    [MachineState_PoweredOff] and with the state it saw before, so the
    states it does not name are told apart by their code alone. *)
Inductive MachineState : Type :=
| MachineState_Null
| MachineState_PoweredOff
| MachineState_Saved
| MachineState_Aborted
| MachineState_Running
| MachineState_Paused
| MachineState_Starting
| MachineState_Stopping
| MachineState_Other (code : N).

Global Instance MachineState_eq_dec : EqDecision MachineState.
Proof. solve_decision. Defined.

(** [vbox.EventType_*]: the five kinds of [interestingEvents] and any
    other kind the source may deliver. *)
Inductive EventType : Type :=
| EventType_OnMachineStateChanged
| EventType_OnStateChanged
| EventType_MachineEvent
| EventType_OnSessionStateChanged
| EventType_OnGuestPropertyChanged
| EventType_Other (code : N).

Global Instance EventType_eq_dec : EqDecision EventType.
Proof. solve_decision. Defined.

Definition interestingEvents : list EventType :=
  [ EventType_OnMachineStateChanged; EventType_OnStateChanged;
    EventType_MachineEvent; EventType_OnSessionStateChanged;
    EventType_OnGuestPropertyChanged ].

(** [vbox.CleanupMode_*]. *)
Inductive CleanupMode : Type :=
| CleanupMode_UnregisterOnly
| CleanupMode_DetachAllReturnNone
| CleanupMode_DetachAllReturnHardDisksOnly
| CleanupMode_Full.

(** [vbox.GuestProperty]. *)
Record GuestProperty : Type := mkGuestProperty {
  Name : string;
  Value : string;
  Timestamp : Z;
  Flags : string
}.

(** A handle on a medium returned by [Unregister]. *)
Definition Medium := string.

(** How a piece of a Go function body ends: it falls through with a
    value, or it executes [return err]. *)
Inductive Flow (A : Type) : Type :=
| Next (a : A)
| Return (err : option error).
Arguments Next {A} a.
Arguments Return {A} err.

Section Monitor.

(** Observers are values of the interface [EventHandler]; the model
    keeps them abstract and records each call of their one method. *)
Context {Handler : Type}.

(** ** The call log *)

Inductive Call : Type :=
| OnGuestPropertyChanged (h : Handler) (name value : string)
                         (timestamp : Z) (flags : string)
| Sleep (d : Z)
| GetEvent (timeout : Z)
| EventProcessed
| Event_Release
| RegisterListener (interesting : list EventType) (active : bool)
| UnregisterListener
| Listener_Release
| EventSource_Release
| UnlockMachine
| Controller_Release
| Unregister (mode : CleanupMode)
| DeleteConfig (media : list Medium)
| WaitForCompletion (timeout : Z)
| Progress_Release
| Machine_Release.

(** The property name a notification carries, if the call is one. *)
Definition notified_name (c : Call) : option string :=
  match c with
  | OnGuestPropertyChanged _ name _ _ _ => Some name
  | _ => None
  end.

Definition is_notification (c : Call) : bool :=
  match c with
  | OnGuestPropertyChanged _ _ _ _ _ => true
  | _ => false
  end.

(** The observer a notification is delivered to. *)
Definition notified_handler (c : Call) : option Handler :=
  match c with
  | OnGuestPropertyChanged h _ _ _ _ => Some h
  | _ => None
  end.

(** ** Control flow of a function body

    A piece of a Go function body either falls through with a value or
    executes [return err]; in both cases it has logged some calls. *)

Definition Exec (A : Type) : Type := list Call * Flow A.

Definition pure {A} (a : A) : Exec A := ([], Next a).

Definition bind {A B} (m : Exec A) (k : A -> Exec B) : Exec B :=
  match m with
  | (log, Next a) => let '(log', r) := k a in (log ++ log', r)
  | (log, Return e) => (log, Return e)
  end.

Definition call (c : Call) : Exec unit := ([c], Next tt).

(** [return err] *)
Definition ret {A} (err : option error) : Exec A := ([], Return err).

(** [v, err := f(); if err != nil { return err }] *)
Definition attempt {A} (r : result A) : Exec A :=
  match r with
  | Ok a => pure a
  | Err e => ret (Some e)
  end.

(** [if err := f(); err != nil { return err }] *)
Definition check (r : option error) : Exec unit :=
  match r with
  | None => pure tt
  | Some e => ret (Some e)
  end.

(** [defer c]: the call is made when the function returns. *)
Definition defer {A} (c : Call) (body : Exec A) : Exec A :=
  let '(log, r) := body in
  match r with
  | Next a => (log, Next a)
  | Return e => (log ++ [c], Return e)
  end.

Notation "'let*' x ':=' m 'in' k" := (bind m (fun x => k))
  (at level 10, x pattern, m at level 100, k at level 200).

(** ** The observer registry *)

(** Of [VirtualMachine] the model keeps the one field the monitor owns;
    the handles [machine], [console], [controller], [session] and [dd]
    are opaque and stand behind the scripts. *)
Record VirtualMachine : Type := mkVM {
  eventHandlers : list Handler
}.

Definition NewVM : VirtualMachine := {| eventHandlers := [] |}.

Definition RegisterEventHandler (vm : VirtualMachine) (handler : Handler)
  : VirtualMachine :=
  {| eventHandlers := eventHandlers vm ++ [handler] |}.

(** [for _, handler := range vm.eventHandlers { handler.OnGuestPropertyChanged(...) }]
    with the same arguments for every handler. *)
Definition notifyAll (vm : VirtualMachine) (name value : string)
    (timestamp : Z) (flags : string) : list Call :=
  map (fun h => OnGuestPropertyChanged h name value timestamp flags)
      (eventHandlers vm).

(** ** A [for { ... }] loop, run for a bounded number of iterations

    [loop body script n s] runs the first [n] iterations of the loop
    from the loop variables [s]; iteration [i] is answered by
    [script i].  [Next s'] means that the loop is still running after
    them, with loop variables [s']; [Return err] that the function has
    returned during one of them. *)
Fixpoint loop {St In : Type} (body : In -> St -> Exec St)
    (script : nat -> In) (n : nat) (s : St) : Exec St :=
  match n with
  | O => pure s
  | S n' => let* s' := loop body script n' s in body (script n') s'
  end.

(** ** The polling loop *)

Abbreviation PropertyMap := (gmap string GuestProperty).

(** The closure [getPropertyMap], applied to what
    [EnumerateGuestProperties] answers. *)
Definition propertyMapOf (properties : list GuestProperty) : PropertyMap :=
  foldl (fun m prop => <[Name prop := prop]> m) ∅ properties.

Definition getPropertyMap (enumerated : result (list GuestProperty))
  : result PropertyMap :=
  match enumerated with
  | Err e => Err e
  | Ok properties => Ok (propertyMapOf properties)
  end.

(** Go visits the entries of a map in an order of the runtime's
    choosing: a [RangeOrder] fixes that choice, and is valid when it
    visits every entry exactly once. *)
Definition RangeOrder : Type := PropertyMap -> list (string * GuestProperty).

Definition valid_range (r : RangeOrder) : Prop :=
  forall m : PropertyMap, r m ≡ₚ map_to_list m.

(** [!ok || previousProperty.Value != prop.Value] *)
Definition changed (previousProperties : PropertyMap) (name : string)
    (prop : GuestProperty) : bool :=
  match previousProperties !! name with
  | None => true
  | Some previousProperty =>
      negb (String.eqb (Value previousProperty) (Value prop))
  end.

(** The first [range] of an iteration, over [properties]. *)
Definition notifyChanged (vm : VirtualMachine)
    (previousProperties : PropertyMap)
    (visited : list (string * GuestProperty)) : list Call :=
  flat_map (fun '(name, prop) =>
              if changed previousProperties name prop
              then notifyAll vm (Name prop) (Value prop) (Timestamp prop)
                             (Flags prop)
              else [])
           visited.

(** The second [range], over [previousProperties]. *)
Definition notifyDeleted (vm : VirtualMachine) (properties : PropertyMap)
    (visited : list (string * GuestProperty)) : list Call :=
  flat_map (fun '(name, prop) =>
              match properties !! name with
              | None => notifyAll vm (Name prop) "" 0 ""
              | Some _ => []
              end)
           visited.

(** The diff of one iteration: both loops, in the order of the source. *)
Definition diffProperties (vm : VirtualMachine)
    (rangeCurrent rangePrevious : RangeOrder)
    (previousProperties properties : PropertyMap) : list Call :=
  notifyChanged vm previousProperties (rangeCurrent properties)
  ++ notifyDeleted vm properties (rangePrevious previousProperties).

(** The loop variables of [pollingLoop]. *)
Record PollVars : Type := mkPollVars {
  previousState : MachineState;
  previousProperties : PropertyMap
}.

(** What the hypervisor and the runtime answer in one iteration. *)
Record PollAnswers : Type := mkPollAnswers {
  poll_GetState : result MachineState;
  poll_EnumerateGuestProperties : result (list GuestProperty);
  poll_rangeCurrent : RangeOrder;
  poll_rangePrevious : RangeOrder
}.

(** The body of [for { ... }] in [pollingLoop]. *)
Definition pollingIteration (vm : VirtualMachine) (a : PollAnswers)
    (v : PollVars) : Exec PollVars :=
  match poll_GetState a with
  | Err _ => ret None
  | Ok state =>
      if bool_decide (state = MachineState_PoweredOff)
         && negb (bool_decide (state = previousState v))
      then ret None
      else
        let* properties :=
          attempt (getPropertyMap (poll_EnumerateGuestProperties a)) in
        let* _ :=
          (diffProperties vm (poll_rangeCurrent a) (poll_rangePrevious a)
                          (previousProperties v) properties, Next tt) in
        let* _ := call (Sleep (250 * Millisecond)) in
        pure {| previousState := state; previousProperties := properties |}
  end.

(** What is answered before the loop and in each of its iterations. *)
Record PollScript : Type := mkPollScript {
  initial_GetState : result MachineState;
  initial_EnumerateGuestProperties : result (list GuestProperty);
  poll_iteration : nat -> PollAnswers
}.

(** [pollingLoop], run for at most [n] iterations of its loop. *)
Definition pollingLoop (vm : VirtualMachine) (script : PollScript) (n : nat)
  : Exec PollVars :=
  let* previousState := attempt (initial_GetState script) in
  let* previousProperties :=
    attempt (getPropertyMap (initial_EnumerateGuestProperties script)) in
  loop (pollingIteration vm) (poll_iteration script) n
       {| previousState := previousState;
          previousProperties := previousProperties |}.

(** ** The event-subscription loop *)

(** What the getters of a guest-property event and the clock answer
    while one handler is served.  A getter answers a Go pair
    [(string, error)], of which the loop keeps the string only. *)
Record Decoding : Type := mkDecoding {
  dec_GetName : string * option error;
  dec_GetValue : string * option error;
  dec_GetFlags : string * option error;
  dec_UnixNano : Z
}.

(** What a delivered event answers. *)
Record EventAnswers : Type := mkEventAnswers {
  ev_GetType : result EventType;
  ev_NewGuestPropertyChangedEvent : option error;
  ev_decoding : nat -> Decoding
}.

(** What the hypervisor answers in one iteration; a [nil] event is the
    answer of [GetEvent] when its wait timed out. *)
Record PassiveAnswers : Type := mkPassiveAnswers {
  pas_GetEvent : result (option EventAnswers);
  pas_GetState : result MachineState;
  pas_EventProcessed : option error
}.

(** The [range] over the handlers of the guest-property case: the
    getters and the clock are asked again for every handler. *)
Definition dispatchGuestProperty (vm : VirtualMachine)
    (decoding : nat -> Decoding) : list Call :=
  imap (fun i handler =>
          let name := (dec_GetName (decoding i)).1 in
          let value := (dec_GetValue (decoding i)).1 in
          let flags := (dec_GetFlags (decoding i)).1 in
          OnGuestPropertyChanged handler name value
                                 (dec_UnixNano (decoding i)) flags)
       (eventHandlers vm).

(** The [switch eventType]; [OnStateChanged] has an empty body. *)
Definition dispatch (vm : VirtualMachine) (event : EventAnswers)
    (eventType : EventType) : Exec unit :=
  match eventType with
  | EventType_OnStateChanged => pure tt
  | EventType_OnGuestPropertyChanged =>
      let* _ := check (ev_NewGuestPropertyChangedEvent event) in
      (dispatchGuestProperty vm (ev_decoding event), Next tt)
  | _ => pure tt
  end.

(** The body of [for { ... }] in [passiveListenerLoop]. *)
Definition passiveIteration (vm : VirtualMachine) (a : PassiveAnswers)
    (_ : unit) : Exec unit :=
  let* _ := call (GetEvent 250) in
  let* event := attempt (pas_GetEvent a) in
  match event with
  | None => pure tt
  | Some event =>
      let* eventType := attempt (ev_GetType event) in
      let* state := attempt (pas_GetState a) in
      let* _ := dispatch vm event eventType in
      if bool_decide (eventType = EventType_OnStateChanged)
         && bool_decide (state = MachineState_PoweredOff)
      then ret None
      else
        let* _ := call EventProcessed in
        let* _ := check (pas_EventProcessed a) in
        call Event_Release
  end.

Record PassiveScript : Type := mkPassiveScript {
  pas_GetEventSource : option error;
  pas_CreateListener : option error;
  pas_RegisterListener : option error;
  passive_iteration : nat -> PassiveAnswers
}.

(** [passiveListenerLoop], run for at most [n] iterations of its loop. *)
Definition passiveListenerLoop (vm : VirtualMachine)
    (script : PassiveScript) (n : nat) : Exec unit :=
  let* _ := check (pas_GetEventSource script) in
  defer EventSource_Release (
    let* _ := check (pas_CreateListener script) in
    defer Listener_Release (
      let* _ := call (RegisterListener interestingEvents false) in
      let* _ := check (pas_RegisterListener script) in
      defer UnregisterListener (
        loop (passiveIteration vm) (passive_iteration script) n tt))).

(** ** Run *)

(** Where a run stands: still in its loop, or returned with [err]. *)
Definition status {A} (e : Exec A) : option (option error) :=
  match e.2 with
  | Next _ => None
  | Return err => Some err
  end.

(** [Run] starts the loop that [backend.SupportPassiveListener] selects
    and waits for it. *)
Definition Run (vm : VirtualMachine) (SupportPassiveListener : bool)
    (passive : PassiveScript) (polling : PollScript) (n : nat)
  : list Call * option (option error) :=
  if SupportPassiveListener
  then let r := passiveListenerLoop vm passive n in (r.1, status r)
  else let r := pollingLoop vm polling n in (r.1, status r).

(** ** Release *)

Record ReleaseAnswers : Type := mkReleaseAnswers {
  rel_UnlockMachine : option error;
  rel_Controller_Release : option error;
  rel_Unregister : result (list Medium);
  rel_DeleteConfig : option error;
  rel_WaitForCompletion : option error;
  rel_Machine_Release : option error
}.

Definition Release (a : ReleaseAnswers) : Exec Empty_set :=
  let* _ := call UnlockMachine in
  let* _ := check (rel_UnlockMachine a) in
  let* _ := call (Sleep Second) in
  let* _ := call Controller_Release in
  let* _ := check (rel_Controller_Release a) in
  let* _ := call (Unregister CleanupMode_Full) in
  let* media := attempt (rel_Unregister a) in
  let* _ := call (DeleteConfig media) in
  let* _ := check (rel_DeleteConfig a) in
  defer Progress_Release (
    let* _ := call (WaitForCompletion (-1)) in
    let* _ := check (rel_WaitForCompletion a) in
    let* _ := call Machine_Release in
    let* _ := check (rel_Machine_Release a) in
    ret None).

(** ** The vocabulary of the properties *)

(** A snapshot is keyed by the names of its properties. *)
Definition well_keyed (m : PropertyMap) : Prop :=
  forall k p, m !! k = Some p -> Name p = k.

(** The call is a notification that carries the property name [k]. *)
Definition named (k : string) (c : Call) : Prop := notified_name c = Some k.

Global Instance named_dec k c : Decision (named k c).
Proof. unfold named. apply _. Defined.

(** A block function emits, for an entry, notifications that carry the
    name of that entry's property and nothing else. *)
Definition emits_own_name (g : string * GuestProperty -> list Call) : Prop :=
  forall k p, Forall (named (Name p)) (g (k, p)).

(** The notifications the polling diff delivers, one per detected
    change, before the fan-out to the observers. *)
Definition Notification : Type := string * string * Z * string.

Definition fanOut (vm : VirtualMachine) (n : Notification) : list Call :=
  let '(name, value, timestamp, flags) := n in
  notifyAll vm name value timestamp flags.

(** The state [pollingLoop] compares with in iteration [i], its
    [previousState]: what the query before the loop answered for the
    first iteration, what the query of the iteration before answered for
    every other one. *)
Definition recorded_before (script : PollScript) (i : nat)
  : result MachineState :=
  match i with
  | O => initial_GetState script
  | S j => poll_GetState (poll_iteration script j)
  end.

(** The change, old or new or gone, that the polling diff of the
    snapshots [S0] (previous) and [S1] (current) has to report with the
    notification [n]. *)
Definition detected_change (S0 S1 : PropertyMap) (n : Notification) : Prop :=
  (exists k p, S1 !! k = Some p /\ changed S0 k p = true
               /\ n = (Name p, Value p, Timestamp p, Flags p))
  \/ (exists k q, S0 !! k = Some q /\ S1 !! k = None
                  /\ n = (Name q, "", 0, "")).

(** The exit test of the loop: a state-changed event was delivered and
    the state queried in the same iteration is powered-off. *)
Definition power_off_event (a : PassiveAnswers) : Prop :=
  exists ev, pas_GetEvent a = Ok (Some ev)
             /\ ev_GetType ev = Ok EventType_OnStateChanged
             /\ pas_GetState a = Ok MachineState_PoweredOff.

(** No call of the iteration is answered by an error. *)
Definition no_call_fails (a : PassiveAnswers) : Prop :=
  match pas_GetEvent a with
  | Err _ => False
  | Ok None => True
  | Ok (Some ev) =>
      (exists eventType, ev_GetType ev = Ok eventType)
      /\ (exists state, pas_GetState a = Ok state)
      /\ ev_NewGuestPropertyChangedEvent ev = None
      /\ pas_EventProcessed a = None
  end.

(** Modelled from the spec: the getters [GetName], [GetValue] and
    [GetFlags] of the hypervisor binding are not among the sources; a
    getter that fails answers the empty string, the zero value of its
    result, next to its error. *)
Definition zero_on_failure (answer : string * option error) : Prop :=
  answer.2 <> None -> answer.1 = "".

(** ** Scripted runs *)

(** The machine with the observers [handlers], registered in order. *)
Definition registered (handlers : list Handler) : VirtualMachine :=
  foldl RegisterEventHandler NewVM handlers.

(** A runtime that visits maps in the order of their listing. *)
Definition listed : RangeOrder := map_to_list.

Definition before : list GuestProperty :=
  [ mkGuestProperty "env" "prod" 10 "";
    mkGuestProperty "old" "x" 11 "";
    mkGuestProperty "same" "s" 12 "" ].

Definition after : list GuestProperty :=
  [ mkGuestProperty "env" "staging" 20 "";
    mkGuestProperty "ver" "1" 21 "";
    mkGuestProperty "same" "s" 22 "RDONLY" ].

(** *** Scripts for the polling loop *)

Definition polled (state : MachineState) (properties : list GuestProperty)
  : PollAnswers :=
  {| poll_GetState := Ok state;
     poll_EnumerateGuestProperties := Ok properties;
     poll_rangeCurrent := listed;
     poll_rangePrevious := listed |}.

(** Running for two iterations, powered-off in the third. *)
Definition shutdown_polling : PollScript :=
  {| initial_GetState := Ok MachineState_Running;
     initial_EnumerateGuestProperties := Ok before;
     poll_iteration := fun i =>
       match i with
       | 0%nat => polled MachineState_Running before
       | 1%nat => polled MachineState_Running after
       | _ => polled MachineState_PoweredOff after
       end |}.

(** Powered-off as the loop starts, then running for two iterations,
    powered-off again in the third. *)
Definition restarted_polling : PollScript :=
  {| initial_GetState := Ok MachineState_PoweredOff;
     initial_EnumerateGuestProperties := Ok before;
     poll_iteration := fun i =>
       match i with
       | 0%nat => polled MachineState_Running before
       | 1%nat => polled MachineState_Running after
       | _ => polled MachineState_PoweredOff after
       end |}.

(** Powered-off from the start, for ever. *)
Definition already_off : PollScript :=
  {| initial_GetState := Ok MachineState_PoweredOff;
     initial_EnumerateGuestProperties := Ok before;
     poll_iteration := fun _ => polled MachineState_PoweredOff before |}.

(** Powered-off from the start; the first enumeration of the loop
    fails. *)
Definition already_off_enumeration_fails : PollScript :=
  {| initial_GetState := Ok MachineState_PoweredOff;
     initial_EnumerateGuestProperties := Ok before;
     poll_iteration := fun _ =>
       {| poll_GetState := Ok MachineState_PoweredOff;
          poll_EnumerateGuestProperties := Err "session closed";
          poll_rangeCurrent := listed;
          poll_rangePrevious := listed |} |}.

(** *** Scripts for the event-subscription loop *)

Definition silent : Decoding :=
  {| dec_GetName := ("", None); dec_GetValue := ("", None);
     dec_GetFlags := ("", None); dec_UnixNano := 0 |}.

Definition event_of_kind (eventType : EventType) : EventAnswers :=
  {| ev_GetType := Ok eventType;
     ev_NewGuestPropertyChangedEvent := None;
     ev_decoding := fun _ => silent |}.

Definition delivered (eventType : EventType) (state : MachineState)
  : PassiveAnswers :=
  {| pas_GetEvent := Ok (Some (event_of_kind eventType));
     pas_GetState := Ok state;
     pas_EventProcessed := None |}.

Definition timed_out : PassiveAnswers :=
  {| pas_GetEvent := Ok None;
     pas_GetState := Ok MachineState_Running;
     pas_EventProcessed := None |}.

Definition subscribed (answers : nat -> PassiveAnswers) : PassiveScript :=
  {| pas_GetEventSource := None;
     pas_CreateListener := None;
     pas_RegisterListener := None;
     passive_iteration := answers |}.

(** A time-out, a guest-property event, then the state-changed event of
    the power-off. *)
Definition shutdown_events : PassiveScript :=
  subscribed (fun i =>
    match i with
    | 0%nat => timed_out
    | 1%nat => delivered EventType_OnGuestPropertyChanged MachineState_Running
    | _ => delivered EventType_OnStateChanged MachineState_PoweredOff
    end).

(** The machine runs in iteration 0 and is reported powered-off from
    iteration 1 on, with events of kind machine-state-changed: no call
    fails and no event of kind state-changed is ever delivered. *)
Definition power_off_without_state_changed : PassiveScript :=
  subscribed (fun i =>
    match i with
    | 0%nat => delivered EventType_MachineEvent MachineState_Running
    | _ => delivered EventType_OnMachineStateChanged MachineState_PoweredOff
    end).

(** * Properties *)

(** Feed the script's answer [H] to the call that is waiting for it. *)
Ltac answer H := rewrite H; simpl.

(** ** Loops that have returned, loops that go on *)

(** Once the function has returned, further iterations change nothing. *)
Lemma loop_returned_S {St In} (body : In -> St -> Exec St) script n s err :
  (loop body script n s).2 = Return err ->
  loop body script (S n) s = loop body script n s.
Proof.
  simpl. destruct (loop body script n s) as [log [s'|e]]; simpl; [done|].
  by intros [= ->].
Qed.

Lemma loop_returned_le {St In} (body : In -> St -> Exec St) script n m s err :
  (n <= m)%nat ->
  (loop body script n s).2 = Return err ->
  loop body script m s = loop body script n s.
Proof.
  induction 1 as [|m Hle IH]; [done|].
  intros Hret. rewrite <- (IH Hret).
  apply loop_returned_S with err. by rewrite (IH Hret).
Qed.

(** ** Snapshots are keyed by the names of their properties *)

Lemma well_keyed_insert (m : PropertyMap) (prop : GuestProperty) :
  well_keyed m -> well_keyed (<[Name prop := prop]> m).
Proof.
  intros Hm k p. destruct (decide (Name prop = k)) as [<-|Hne].
  - rewrite lookup_insert_eq. by intros [= <-].
  - rewrite lookup_insert_ne by done. apply Hm.
Qed.

Lemma propertyMapOf_well_keyed (properties : list GuestProperty) :
  well_keyed (propertyMapOf properties).
Proof.
  unfold propertyMapOf.
  assert (Hgen : forall m : PropertyMap, well_keyed m ->
            well_keyed (foldl (fun m prop => <[Name prop := prop]> m)
                              m properties)).
  { induction properties as [|prop properties IH]; intros m Hm; [done|].
    simpl. apply IH. by apply well_keyed_insert. }
  apply Hgen. intros k p. by rewrite lookup_empty.
Qed.

(** ** What a valid range visits *)

Lemma valid_range_elem (r : RangeOrder) (m : PropertyMap) k p :
  valid_range r -> (k, p) ∈ r m <-> m !! k = Some p.
Proof. intros Hr. rewrite (Hr m). apply elem_of_map_to_list. Qed.

Lemma valid_range_NoDup (r : RangeOrder) (m : PropertyMap) :
  valid_range r -> NoDup (r m).*1.
Proof.
  intros Hr. rewrite (Hr m). apply NoDup_fst_map_to_list.
Qed.

(** ** Selecting the notifications of one name from a log *)

Lemma filter_named_block_ne (l : list Call) k k' :
  k' <> k -> Forall (named k') l -> filter (named k) l = [].
Proof.
  intros Hne. induction 1 as [|c l Hc _ IH]; [done|].
  rewrite filter_cons_False; [done|].
  unfold named in *. congruence.
Qed.

Lemma filter_named_block_eq (l : list Call) k :
  Forall (named k) l -> filter (named k) l = l.
Proof.
  induction 1 as [|c l Hc _ IH]; [done|].
  rewrite filter_cons_True by done. by rewrite IH.
Qed.

Lemma filter_named_flat_map_absent g (l : list (string * GuestProperty)) k :
  emits_own_name g ->
  (forall k' p, (k', p) ∈ l -> Name p = k') ->
  k ∉ l.*1 ->
  filter (named k) (flat_map g l) = [].
Proof.
  intros Hg. induction l as [|[k' p] l IH]; intros Hkeys Hnot; [done|].
  simpl. rewrite filter_app.
  rewrite IH.
  - rewrite app_nil_r. apply filter_named_block_ne with (Name p); [|apply Hg].
    rewrite (Hkeys k' p) by left. intros ->. apply Hnot. simpl. left.
  - intros k'' p' Hin. apply Hkeys. by right.
  - intros Hin. apply Hnot. simpl. by right.
Qed.

Lemma filter_named_flat_map_present g (l : list (string * GuestProperty)) k p :
  emits_own_name g ->
  (forall k' p', (k', p') ∈ l -> Name p' = k') ->
  NoDup l.*1 ->
  (k, p) ∈ l ->
  filter (named k) (flat_map g l) = g (k, p).
Proof.
  intros Hg. induction l as [|[k' p'] l IH]; intros Hkeys Hnd Hin.
  - by apply elem_of_nil in Hin.
  - simpl in *. apply NoDup_cons in Hnd as [Hfresh Hnd].
    rewrite filter_app.
    apply elem_of_cons in Hin as [[= <- <-]|Hin].
    + rewrite filter_named_flat_map_absent; [|done| |done].
      * rewrite app_nil_r. apply filter_named_block_eq.
        rewrite <- (Hkeys k p) at 1 by left. apply Hg.
      * intros k'' p'' Hin'. apply Hkeys. by right.
    + rewrite IH; [|intros k'' p'' Hin'; apply Hkeys; by right|done|done].
      rewrite (filter_named_block_ne _ k (Name p')); [done| |apply Hg].
      rewrite (Hkeys k' p') by left. intros ->.
      apply Hfresh. apply list_elem_of_fmap. by exists (k, p).
Qed.

Lemma Forall_named_notifyAll vm k v t f :
  Forall (named k) (notifyAll vm k v t f).
Proof.
  unfold notifyAll. apply Forall_forall. intros c Hc.
  apply list_elem_of_fmap in Hc as (h & -> & _). done.
Qed.

Lemma range_keyed (r : RangeOrder) (m : PropertyMap) :
  valid_range r -> well_keyed m ->
  forall k p, (k, p) ∈ r m -> Name p = k.
Proof. intros Hr Hm k p Hin. apply Hm. by apply (valid_range_elem r). Qed.

Lemma range_absent (r : RangeOrder) (m : PropertyMap) k :
  valid_range r -> m !! k = None -> k ∉ (r m).*1.
Proof.
  intros Hr Hnone Hin. apply list_elem_of_fmap in Hin as ([k' p] & -> & Hin).
  apply (valid_range_elem r) in Hin; [|done]. simpl in *. congruence.
Qed.

Lemma changed_spec (previousProperties : PropertyMap) k p :
  changed previousProperties k p = true <->
  previousProperties !! k = None \/
  exists q, previousProperties !! k = Some q /\ Value q <> Value p.
Proof.
  unfold changed. destruct (previousProperties !! k) as [q|].
  - rewrite negb_true_iff, String.eqb_neq. split.
    + intros Hne. right. by exists q.
    + intros [?|(q' & [= <-] & Hne)]; done.
  - split; [by left|done].
Qed.

(** The notifications of the first [range] that carry the name [k]. *)
Lemma filter_named_notifyChanged vm (r : RangeOrder)
    (S0 S1 : PropertyMap) k :
  valid_range r -> well_keyed S1 ->
  filter (named k) (notifyChanged vm S0 (r S1)) =
  match S1 !! k with
  | Some p => if changed S0 k p
              then notifyAll vm k (Value p) (Timestamp p) (Flags p)
              else []
  | None => []
  end.
Proof.
  intros Hr Hk. unfold notifyChanged.
  set (g := fun '(name, prop) => if changed S0 name prop then _ else _).
  assert (Hg : emits_own_name g).
  { intros k' p. unfold g. destruct (changed S0 k' p); [|done].
    apply Forall_named_notifyAll. }
  destruct (S1 !! k) as [p|] eqn:Hlook.
  - rewrite (filter_named_flat_map_present g _ k p); auto.
    + unfold g. by rewrite (Hk k p Hlook).
    + by apply range_keyed.
    + by apply valid_range_NoDup.
    + by apply (valid_range_elem r).
  - apply filter_named_flat_map_absent; auto.
    + by apply range_keyed.
    + by apply range_absent.
Qed.

(** The notifications of the second [range] that carry the name [k]. *)
Lemma filter_named_notifyDeleted vm (r : RangeOrder)
    (S0 S1 : PropertyMap) k :
  valid_range r -> well_keyed S0 ->
  filter (named k) (notifyDeleted vm S1 (r S0)) =
  match S0 !! k, S1 !! k with
  | Some _, None => notifyAll vm k "" 0 ""
  | _, _ => []
  end.
Proof.
  intros Hr Hk. unfold notifyDeleted.
  set (g := fun '(name, prop) => match S1 !! name with None => _ | _ => _ end).
  assert (Hg : emits_own_name g).
  { intros k' p. unfold g. destruct (S1 !! k'); [done|].
    apply Forall_named_notifyAll. }
  destruct (S0 !! k) as [q|] eqn:Hlook.
  - rewrite (filter_named_flat_map_present g _ k q); auto.
    + unfold g. rewrite (Hk k q Hlook). by destruct (S1 !! k).
    + by apply range_keyed.
    + by apply valid_range_NoDup.
    + by apply (valid_range_elem r).
  - apply filter_named_flat_map_absent; auto.
    + by apply range_keyed.
    + by apply range_absent.
Qed.

Lemma filter_named_diffProperties vm (r1 r0 : RangeOrder)
    (S0 S1 : PropertyMap) k :
  valid_range r1 -> valid_range r0 -> well_keyed S0 -> well_keyed S1 ->
  filter (named k) (diffProperties vm r1 r0 S0 S1) =
  match S1 !! k with
  | Some p => if changed S0 k p
              then notifyAll vm k (Value p) (Timestamp p) (Flags p)
              else []
  | None => match S0 !! k with
            | Some _ => notifyAll vm k "" 0 ""
            | None => []
            end
  end.
Proof.
  intros Hr1 Hr0 Hk0 Hk1. unfold diffProperties. rewrite filter_app.
  rewrite filter_named_notifyChanged, filter_named_notifyDeleted by done.
  destruct (S1 !! k) as [p|], (S0 !! k) as [q|]; simpl;
    by rewrite ?app_nil_r.
Qed.

(** Every call the diff makes is a notification. *)
Lemma diffProperties_notifications vm (r1 r0 : RangeOrder)
    (S0 S1 : PropertyMap) :
  Forall (fun c => is_notification c = true)
         (diffProperties vm r1 r0 S0 S1).
Proof.
  unfold diffProperties, notifyChanged, notifyDeleted.
  apply Forall_app. split; apply Forall_forall; intros c Hc;
    apply list_elem_of_In, in_flat_map in Hc as ([k p] & _ & Hc);
    apply list_elem_of_In in Hc.
  - destruct (changed S0 k p); [|by apply elem_of_nil in Hc].
    apply list_elem_of_fmap in Hc as (h & -> & _). done.
  - destruct (S1 !! k); [by apply elem_of_nil in Hc|].
    apply list_elem_of_fmap in Hc as (h & -> & _). done.
Qed.

Lemma flat_map_all_nil {A B} (g : A -> list B) (l : list A) :
  (forall x, x ∈ l -> g x = []) -> flat_map g l = [].
Proof.
  induction l as [|x l IH]; intros Hall; [done|].
  simpl. rewrite (Hall x) by left. apply IH. intros y Hy. apply Hall. by right.
Qed.

(** Nothing has changed and nothing is gone between a snapshot and
    itself. *)
Lemma diffProperties_same vm (r1 r0 : RangeOrder) (S1 : PropertyMap) :
  valid_range r1 -> valid_range r0 ->
  diffProperties vm r1 r0 S1 S1 = [].
Proof.
  intros Hr1 Hr0. unfold diffProperties, notifyChanged, notifyDeleted.
  rewrite !flat_map_all_nil; [done| |].
  - intros [k p] Hin. apply (valid_range_elem r0) in Hin; [|done].
    by rewrite Hin.
  - intros [k p] Hin. apply (valid_range_elem r1) in Hin; [|done].
    unfold changed. rewrite Hin. by rewrite String.eqb_refl.
Qed.

(** An iteration of the polling loop that neither returns nor fails
    makes the calls of the diff, sleeps, and keeps the new snapshot. *)
Lemma pollingIteration_continue vm a v state enumerated :
  poll_GetState a = Ok state ->
  (state = MachineState_PoweredOff -> state = previousState v) ->
  poll_EnumerateGuestProperties a = Ok enumerated ->
  pollingIteration vm a v =
  (diffProperties vm (poll_rangeCurrent a) (poll_rangePrevious a)
                  (previousProperties v) (propertyMapOf enumerated)
   ++ [Sleep (250 * Millisecond)],
   Next {| previousState := state;
           previousProperties := propertyMapOf enumerated |}).
Proof.
  intros Hstate Hsame Henum. unfold pollingIteration.
  rewrite Hstate, Henum.
  destruct (bool_decide (state = MachineState_PoweredOff)) eqn:Hoff; simpl.
  - apply bool_decide_eq_true in Hoff.
    by rewrite (bool_decide_eq_true_2 _ (Hsame Hoff)).
  - done.
Qed.

(** What the calls of the two ranges look like. *)
Lemma notifyChanged_calls vm (r : RangeOrder) (S0 S1 : PropertyMap) :
  valid_range r -> well_keyed S1 ->
  Forall (fun c => exists h k p,
            S1 !! k = Some p /\
            c = OnGuestPropertyChanged h k (Value p) (Timestamp p) (Flags p))
         (notifyChanged vm S0 (r S1)).
Proof.
  intros Hr Hk. apply Forall_forall. intros c Hc.
  apply list_elem_of_In, in_flat_map in Hc as ([k p] & Hin & Hc).
  apply list_elem_of_In in Hin, Hc.
  apply (valid_range_elem r) in Hin; [|done].
  destruct (changed S0 k p); [|by apply elem_of_nil in Hc].
  apply list_elem_of_fmap in Hc as (h & -> & _).
  exists h, k, p. by rewrite (Hk k p Hin).
Qed.

Lemma notifyDeleted_calls vm (r : RangeOrder) (S0 S1 : PropertyMap) :
  valid_range r -> well_keyed S0 ->
  Forall (fun c => exists h k,
            is_Some (S0 !! k) /\ S1 !! k = None /\
            c = OnGuestPropertyChanged h k "" 0 "")
         (notifyDeleted vm S1 (r S0)).
Proof.
  intros Hr Hk. apply Forall_forall. intros c Hc.
  apply list_elem_of_In, in_flat_map in Hc as ([k p] & Hin & Hc).
  apply list_elem_of_In in Hin, Hc.
  apply (valid_range_elem r) in Hin; [|done].
  destruct (S1 !! k) eqn:Hlook; [by apply elem_of_nil in Hc|].
  apply list_elem_of_fmap in Hc as (h & -> & _).
  exists h, k. by rewrite (Hk k p Hin), Hin.
Qed.

(** ** The diff of the polling loop *)

(** C1: for snapshots [S0] (previous) and [S1] (current) built by
    [getPropertyMap], the diff of one polling iteration makes, for a key
    of [S1] that is new or whose value differs, exactly one notification
    per registered observer, with the name, value, timestamp and flags
    of [S1]; for a key of [S0] that [S1] lacks, exactly one notification
    per observer with that name, the empty value, timestamp zero and
    empty flags; for a key whose value is the same, none.  The diff
    makes no other call, the diff of a snapshot against itself makes
    none at all, and an iteration of the loop that goes on makes the
    calls of the diff and then sleeps. *)
Theorem polling_diff_notifies_exactly_the_changes
    vm (r1 r0 : RangeOrder) (enumerated0 enumerated1 : list GuestProperty) :
  valid_range r1 -> valid_range r0 ->
  let S0 := propertyMapOf enumerated0 in
  let S1 := propertyMapOf enumerated1 in
  let log := diffProperties vm r1 r0 S0 S1 in
  (forall k p,
      S1 !! k = Some p ->
      S0 !! k = None \/ (exists q, S0 !! k = Some q /\ Value q <> Value p) ->
      filter (named k) log =
      map (fun h => OnGuestPropertyChanged h k (Value p) (Timestamp p)
                                           (Flags p))
          (eventHandlers vm))
  /\ (forall k q,
        S0 !! k = Some q -> S1 !! k = None ->
        filter (named k) log =
        map (fun h => OnGuestPropertyChanged h k "" 0 "") (eventHandlers vm))
  /\ (forall k p q,
        S1 !! k = Some p -> S0 !! k = Some q -> Value q = Value p ->
        filter (named k) log = [])
  /\ (forall k, S1 !! k = None -> S0 !! k = None -> filter (named k) log = [])
  /\ Forall (fun c => is_notification c = true) log
  /\ diffProperties vm r1 r0 S1 S1 = []
  /\ (forall a v state,
        poll_GetState a = Ok state ->
        (state = MachineState_PoweredOff -> state = previousState v) ->
        poll_EnumerateGuestProperties a = Ok enumerated1 ->
        previousProperties v = S0 ->
        poll_rangeCurrent a = r1 -> poll_rangePrevious a = r0 ->
        (pollingIteration vm a v).1 = log ++ [Sleep (250 * Millisecond)]).
Proof.
  intros Hr1 Hr0 S0 S1 log.
  assert (Hk0 : well_keyed S0) by apply propertyMapOf_well_keyed.
  assert (Hk1 : well_keyed S1) by apply propertyMapOf_well_keyed.
  assert (Hsel := fun k => filter_named_diffProperties vm r1 r0 S0 S1 k
                             Hr1 Hr0 Hk0 Hk1).
  repeat split.
  - intros k p Hp Hchg. unfold log. rewrite Hsel, Hp.
    apply changed_spec in Hchg. by rewrite Hchg.
  - intros k q Hq Hnone. unfold log. by rewrite Hsel, Hnone, Hq.
  - intros k p q Hp Hq Hsame. unfold log. rewrite Hsel, Hp.
    unfold changed. rewrite Hq, Hsame. by rewrite String.eqb_refl.
  - intros k Hn1 Hn0. unfold log. by rewrite Hsel, Hn1, Hn0.
  - apply diffProperties_notifications.
  - by apply diffProperties_same.
  - intros a v state Hstate Hsame Henum Hprev Hr1' Hr0'.
    rewrite (pollingIteration_continue vm a v state enumerated1) by done.
    simpl. by rewrite Hprev, Hr1', Hr0'.
Qed.

(** C9: in the diff of one polling iteration every notification for a
    key of the current snapshot (changed or new) comes before every
    notification for a key that is gone: the log is the notifications of
    the first kind followed by those of the second, and it is what an
    iteration that goes on logs before it sleeps. *)
Theorem polling_notifies_changes_before_deletions
    vm (r1 r0 : RangeOrder) (enumerated0 enumerated1 : list GuestProperty) :
  valid_range r1 -> valid_range r0 ->
  let S0 := propertyMapOf enumerated0 in
  let S1 := propertyMapOf enumerated1 in
  let log := diffProperties vm r1 r0 S0 S1 in
  (exists changes deletions,
      log = changes ++ deletions
      /\ Forall (fun c => exists h k p,
                   S1 !! k = Some p /\
                   c = OnGuestPropertyChanged h k (Value p) (Timestamp p)
                                              (Flags p)) changes
      /\ Forall (fun c => exists h k,
                   is_Some (S0 !! k) /\ S1 !! k = None /\
                   c = OnGuestPropertyChanged h k "" 0 "") deletions)
  /\ (forall (i j : nat) ci cj ki kj,
        log !! i = Some ci -> log !! j = Some cj ->
        named ki ci -> named kj cj ->
        is_Some (S1 !! ki) -> S1 !! kj = None ->
        (i < j)%nat)
  /\ (forall a v state,
        poll_GetState a = Ok state ->
        (state = MachineState_PoweredOff -> state = previousState v) ->
        poll_EnumerateGuestProperties a = Ok enumerated1 ->
        previousProperties v = S0 ->
        poll_rangeCurrent a = r1 -> poll_rangePrevious a = r0 ->
        (pollingIteration vm a v).1 = log ++ [Sleep (250 * Millisecond)]).
Proof.
  intros Hr1 Hr0 S0 S1 log.
  assert (Hk0 : well_keyed S0) by apply propertyMapOf_well_keyed.
  assert (Hk1 : well_keyed S1) by apply propertyMapOf_well_keyed.
  assert (Hc := notifyChanged_calls vm r1 S0 S1 Hr1 Hk1).
  assert (Hd := notifyDeleted_calls vm r0 S0 S1 Hr0 Hk0).
  split; [|split].
  { exists (notifyChanged vm S0 (r1 S1)), (notifyDeleted vm S1 (r0 S0)).
    done. }
  2: { intros a v state Hstate Hsame Henum Hprev Hr1' Hr0'.
    rewrite (pollingIteration_continue vm a v state enumerated1) by done.
    simpl. by rewrite Hprev, Hr1', Hr0'. }
  intros i j ci cj ki kj Hi Hj Hni Hnj Hpresent Hgone.
  unfold log, diffProperties in Hi, Hj.
  destruct (decide (i < length (notifyChanged vm S0 (r1 S1)))%nat) as [Hlt|Hge].
  - destruct (decide (j < length (notifyChanged vm S0 (r1 S1)))%nat)
      as [Hjlt|Hjge]; [|lia].
    rewrite lookup_app_l in Hj by done.
    rewrite Forall_forall in Hc.
    destruct (Hc cj) as (h & k & p & Hp & ->);
      [by eapply list_elem_of_lookup_2|].
    unfold named in Hnj. simpl in Hnj. injection Hnj as ->. congruence.
  - rewrite lookup_app_r in Hi by lia.
    rewrite Forall_forall in Hd.
    destruct (Hd ci) as (h & k & _ & Hnone & ->);
      [by eapply list_elem_of_lookup_2|].
    unfold named in Hni. simpl in Hni. injection Hni as ->.
    destruct Hpresent as [p Hp]. congruence.
Qed.

(** ** The observer registry and the fan-out *)

Lemma notifyChanged_fanOut vm (S0 : PropertyMap) visited :
  exists notes, notifyChanged vm S0 visited = flat_map (fanOut vm) notes.
Proof.
  induction visited as [|[k p] l [notes IH]]; [by exists []|].
  simpl. rewrite IH. destruct (changed S0 k p).
  - by exists ((Name p, Value p, Timestamp p, Flags p) :: notes).
  - by exists notes.
Qed.

Lemma notifyDeleted_fanOut vm (S1 : PropertyMap) visited :
  exists notes, notifyDeleted vm S1 visited = flat_map (fanOut vm) notes.
Proof.
  induction visited as [|[k p] l [notes IH]]; [by exists []|].
  simpl. rewrite IH. destruct (S1 !! k).
  - by exists notes.
  - by exists ((Name p, "", 0, "") :: notes).
Qed.

(** The first [range] fans out one notification per visited entry that
    is new or whose value differs, in the order of the visit. *)
Lemma notifyChanged_notes vm (S0 : PropertyMap) visited :
  exists notes,
    notifyChanged vm S0 visited = flat_map (fanOut vm) notes
    /\ forall n, n ∈ notes <->
                 exists k p, (k, p) ∈ visited /\ changed S0 k p = true
                             /\ n = (Name p, Value p, Timestamp p, Flags p).
Proof.
  induction visited as [|[k p] l (notes & IH & Hmem)].
  - exists []. split; [done|]. intros n. split.
    + intros Hin. by apply elem_of_nil in Hin.
    + intros (k & p & Hin & _). by apply elem_of_nil in Hin.
  - simpl. rewrite IH. destruct (changed S0 k p) eqn:Hc.
    + exists ((Name p, Value p, Timestamp p, Flags p) :: notes).
      split; [done|]. intros n. rewrite elem_of_cons, Hmem. split.
      * intros [->|(k' & p' & Hin & Hc' & ->)].
        -- exists k, p. split; [left|done].
        -- exists k', p'. split; [by right|done].
      * intros (k' & p' & Hin & Hc' & ->).
        apply elem_of_cons in Hin as [[= -> ->]|Hin]; [by left|].
        right. by exists k', p'.
    + exists notes. split; [done|]. intros n. rewrite Hmem. split.
      * intros (k' & p' & Hin & Hc' & ->).
        exists k', p'. split; [by right|done].
      * intros (k' & p' & Hin & Hc' & ->).
        apply elem_of_cons in Hin as [[= -> ->]|Hin]; [congruence|].
        by exists k', p'.
Qed.

(** The second [range] fans out one deletion per visited entry that the
    current snapshot lacks, in the order of the visit. *)
Lemma notifyDeleted_notes vm (S1 : PropertyMap) visited :
  exists notes,
    notifyDeleted vm S1 visited = flat_map (fanOut vm) notes
    /\ forall n, n ∈ notes <->
                 exists k q, (k, q) ∈ visited /\ S1 !! k = None
                             /\ n = (Name q, "", 0, "").
Proof.
  induction visited as [|[k q] l (notes & IH & Hmem)].
  - exists []. split; [done|]. intros n. split.
    + intros Hin. by apply elem_of_nil in Hin.
    + intros (k & q & Hin & _). by apply elem_of_nil in Hin.
  - simpl. rewrite IH. destruct (S1 !! k) as [p|] eqn:Hlook.
    + exists notes. split; [done|]. intros n. rewrite Hmem. split.
      * intros (k' & q' & Hin & Hnone & ->).
        exists k', q'. split; [by right|done].
      * intros (k' & q' & Hin & Hnone & ->).
        apply elem_of_cons in Hin as [[= -> ->]|Hin]; [congruence|].
        by exists k', q'.
    + exists ((Name q, "", 0, "") :: notes).
      split; [done|]. intros n. rewrite elem_of_cons, Hmem. split.
      * intros [->|(k' & q' & Hin & Hnone & ->)].
        -- exists k, q. split; [left|done].
        -- exists k', q'. split; [by right|done].
      * intros (k' & q' & Hin & Hnone & ->).
        apply elem_of_cons in Hin as [[= -> ->]|Hin]; [by left|].
        right. by exists k', q'.
Qed.

(** The diff of one polling iteration is the fan-out, change by change,
    of the changes it has to report, and of nothing else. *)
Lemma diffProperties_notes vm (r1 r0 : RangeOrder) (S0 S1 : PropertyMap) :
  valid_range r1 -> valid_range r0 ->
  exists notes,
    diffProperties vm r1 r0 S0 S1 = flat_map (fanOut vm) notes
    /\ forall n, n ∈ notes <-> detected_change S0 S1 n.
Proof.
  intros Hr1 Hr0. unfold diffProperties.
  destruct (notifyChanged_notes vm S0 (r1 S1)) as (n1 & -> & H1).
  destruct (notifyDeleted_notes vm S1 (r0 S0)) as (n2 & -> & H2).
  exists (n1 ++ n2). split; [by rewrite flat_map_app|].
  intros n. rewrite elem_of_app, H1, H2. unfold detected_change.
  split; (intros [(k & p & Hin & Hrest)|(k & q & Hin & Hrest)];
          [left; exists k, p|right; exists k, q]); split; try done.
  - by apply (valid_range_elem r1) in Hin.
  - by apply (valid_range_elem r0) in Hin.
  - by apply (valid_range_elem r1).
  - by apply (valid_range_elem r0).
Qed.

(** An iteration of the event-subscription loop that is handed a
    guest-property event serves the observers right after the wait for
    the event, and before it acknowledges the event. *)
Lemma passiveIteration_dispatches vm a ev state :
  pas_GetEvent a = Ok (Some ev) ->
  ev_GetType ev = Ok EventType_OnGuestPropertyChanged ->
  pas_GetState a = Ok state ->
  ev_NewGuestPropertyChangedEvent ev = None ->
  (passiveIteration vm a tt).1 =
  GetEvent 250 :: dispatchGuestProperty vm (ev_decoding ev)
    ++ EventProcessed :: match pas_EventProcessed a with
                         | None => [Event_Release]
                         | Some _ => []
                         end.
Proof.
  intros Hev Hty Hst Hnew. unfold passiveIteration.
  answer Hev. answer Hty. answer Hst. answer Hnew.
  by destruct (pas_EventProcessed a).
Qed.

Lemma dispatchGuestProperty_handlers vm decoding :
  omap notified_handler (dispatchGuestProperty vm decoding)
  = eventHandlers vm.
Proof.
  unfold dispatchGuestProperty. generalize decoding.
  induction (eventHandlers vm) as [|h hs IH]; intros d; [done|].
  simpl. f_equal. apply (IH (fun i => d (S i))).
Qed.

Lemma omap_notified_handler_app (l1 l2 : list Call) :
  omap notified_handler (l1 ++ l2)
  = omap notified_handler l1 ++ omap notified_handler l2.
Proof. apply omap_app. Qed.

(** The observers served by one iteration of the event-subscription
    loop: nobody, or every registered observer in order. *)
Lemma passiveIteration_handlers vm a :
  omap notified_handler (passiveIteration vm a tt).1 = eventHandlers vm
  \/ omap notified_handler (passiveIteration vm a tt).1 = [].
Proof.
  unfold passiveIteration.
  destruct (pas_GetEvent a) as [[ev|]|e]; simpl; auto.
  destruct (ev_GetType ev) as [ty|e]; simpl; auto.
  destruct (pas_GetState a) as [st|e]; simpl; auto.
  destruct ty; simpl;
    try (destruct (bool_decide (st = MachineState_PoweredOff));
         destruct (pas_EventProcessed a); simpl; by auto).
  destruct (ev_NewGuestPropertyChangedEvent ev) as [e|]; simpl; auto.
  left. destruct (pas_EventProcessed a); simpl;
    rewrite ?app_nil_r, omap_notified_handler_app,
      dispatchGuestProperty_handlers; simpl; by rewrite app_nil_r.
Qed.


(** ** Termination of the polling loop *)

Lemma loop_S_Next {St In} (body : In -> St -> Exec St) script n s s' :
  (loop body script n s).2 = Next s' ->
  (loop body script (S n) s).2 = (body (script n) s').2.
Proof.
  simpl. destruct (loop body script n s) as [log [s''|e]]; simpl; [|done].
  intros [= ->]. by destruct (body (script n) s').
Qed.

Lemma status_Next {A} (e : Exec A) a : e.2 = Next a -> status e = None.
Proof. unfold status. by intros ->. Qed.

Lemma status_Return {A} (e : Exec A) err :
  e.2 = Return err -> status e = Some err.
Proof. unfold status. by intros ->. Qed.

Lemma status_None {A} (e : Exec A) :
  status e = None -> exists a, e.2 = Next a.
Proof. unfold status. destruct e.2; [by eexists|done]. Qed.

(** After a successful start, [pollingLoop] is its loop. *)
Lemma pollingLoop_started vm script n state enumerated :
  initial_GetState script = Ok state ->
  initial_EnumerateGuestProperties script = Ok enumerated ->
  pollingLoop vm script n =
  loop (pollingIteration vm) (poll_iteration script) n
       {| previousState := state;
          previousProperties := propertyMapOf enumerated |}.
Proof.
  intros Hs He. unfold pollingLoop. rewrite Hs, He. simpl.
  by destruct (loop _ _ _ _).
Qed.

(** How one iteration of the polling loop ends. *)
Lemma pollingIteration_flow vm a v :
  (pollingIteration vm a v).2 =
  match poll_GetState a with
  | Err _ => Return None
  | Ok state =>
      if bool_decide (state = MachineState_PoweredOff /\
                      state <> previousState v)
      then Return None
      else match poll_EnumerateGuestProperties a with
           | Err e => Return (Some e)
           | Ok enumerated =>
               Next {| previousState := state;
                       previousProperties := propertyMapOf enumerated |}
           end
  end.
Proof.
  unfold pollingIteration. destruct (poll_GetState a) as [state|e]; [|done].
  set (P := state = MachineState_PoweredOff /\ state <> previousState v).
  destruct (decide (state = MachineState_PoweredOff)) as [Hoff|Hon];
    destruct (decide (state = previousState v)) as [Hsame|Hdiff].
  - rewrite (bool_decide_eq_true_2 _ Hoff), (bool_decide_eq_true_2 _ Hsame).
    rewrite (bool_decide_eq_false_2 P) by (intros [_ ?]; done). simpl.
    by destruct (poll_EnumerateGuestProperties a).
  - rewrite (bool_decide_eq_true_2 _ Hoff), (bool_decide_eq_false_2 _ Hdiff).
    by rewrite (bool_decide_eq_true_2 P).
  - rewrite (bool_decide_eq_false_2 _ Hon).
    rewrite (bool_decide_eq_false_2 P) by (intros [? _]; done). simpl.
    by destruct (poll_EnumerateGuestProperties a).
  - rewrite (bool_decide_eq_false_2 _ Hon).
    rewrite (bool_decide_eq_false_2 P) by (intros [? _]; done). simpl.
    by destruct (poll_EnumerateGuestProperties a).
Qed.

(** C4: an iteration of the polling loop returns [nil] exactly when the
    state query fails, or the queried state is powered-off and differs
    from the state recorded before; a failed state query ends the loop
    the way a clean power-off does, with [nil] and no further call, and
    the only error an iteration can return is that of the property
    enumeration. *)
Theorem polling_iteration_returns_nil_iff vm a v :
  ((pollingIteration vm a v).2 = Return None <->
   (exists e, poll_GetState a = Err e)
   \/ (poll_GetState a = Ok MachineState_PoweredOff
       /\ MachineState_PoweredOff <> previousState v))
  /\ (forall e, poll_GetState a = Err e ->
                pollingIteration vm a v = ([], Return None))
  /\ (poll_GetState a = Ok MachineState_PoweredOff ->
      MachineState_PoweredOff <> previousState v ->
      pollingIteration vm a v = ([], Return None))
  /\ (forall e, (pollingIteration vm a v).2 = Return (Some e) ->
                (exists state, poll_GetState a = Ok state)
                /\ poll_EnumerateGuestProperties a = Err e).
Proof.
  split; [split|split; [|split]].
  - rewrite pollingIteration_flow.
    destruct (poll_GetState a) as [state|e]; [|by left; exists e].
    case_bool_decide as Hoff.
    + destruct Hoff as [-> Hdiff]. by right.
    + by destruct (poll_EnumerateGuestProperties a).
  - rewrite pollingIteration_flow.
    intros [[e ->]|[-> Hdiff]]; [done|].
    by rewrite bool_decide_eq_true_2.
  - intros e He. unfold pollingIteration. by rewrite He.
  - intros Hoff Hdiff. unfold pollingIteration. rewrite Hoff.
    rewrite bool_decide_eq_true_2 by done.
    by rewrite bool_decide_eq_false_2.
  - intros e. rewrite pollingIteration_flow.
    destruct (poll_GetState a) as [state|]; [|done].
    case_bool_decide; [done|].
    destruct (poll_EnumerateGuestProperties a); [done|].
    intros [= ->]. split; [by exists state|done].
Qed.

(** A loop whose state queries all answer powered-off, entered with
    powered-off recorded, never meets its success condition. *)
Lemma polling_stays_powered_off vm answers v n :
  previousState v = MachineState_PoweredOff ->
  (forall i, poll_GetState (answers i) = Ok MachineState_PoweredOff) ->
  match (loop (pollingIteration vm) answers n v).2 with
  | Next v' => previousState v' = MachineState_PoweredOff
  | Return None => False
  | Return (Some e) =>
      exists i, (i < n)%nat /\
                poll_EnumerateGuestProperties (answers i) = Err e
  end.
Proof.
  intros Hv Hoff. induction n as [|n IH]; [done|].
  destruct (loop (pollingIteration vm) answers n v).2 as [v'|[e|]] eqn:Hn.
  - rewrite (loop_S_Next _ _ _ _ _ Hn), pollingIteration_flow, Hoff.
    rewrite bool_decide_eq_false_2 by (intros [_ ?]; congruence).
    destruct (poll_EnumerateGuestProperties (answers n)) as [l|e] eqn:He;
      [done|].
    exists n. split; [lia|done].
  - rewrite (loop_returned_S _ _ _ _ _ Hn), Hn.
    destruct IH as (i & Hi & He). exists i. split; [lia|done].
  - done.
Qed.

(** A loop whose queries all succeed and none of whose iterations sees
    the state turn powered-off keeps running, and the state it has
    recorded is the one it read last. *)
Lemma polling_keeps_running vm script s0 m0 N :
  initial_GetState script = Ok s0 ->
  (forall i, (i < N)%nat ->
     exists state previous,
       poll_GetState (poll_iteration script i) = Ok state
       /\ recorded_before script i = Ok previous
       /\ (state = MachineState_PoweredOff ->
           previous = MachineState_PoweredOff)
       /\ exists l,
            poll_EnumerateGuestProperties (poll_iteration script i) = Ok l) ->
  forall n, (n <= N)%nat ->
    exists v',
      (loop (pollingIteration vm) (poll_iteration script) n
            {| previousState := s0; previousProperties := m0 |}).2 = Next v'
      /\ recorded_before script n = Ok (previousState v').
Proof.
  intros Hs0 Hquiet. induction n as [|n IH]; intros Hle; [by eexists|].
  destruct IH as (v' & Hn & Hv'); [lia|].
  destruct (Hquiet n) as (state & previous & Hs & Hprev & Hsame & l & Hl);
    [lia|].
  rewrite Hv' in Hprev. injection Hprev as <-.
  rewrite (loop_S_Next _ _ _ _ _ Hn), pollingIteration_flow, Hs, Hl.
  rewrite bool_decide_eq_false_2 by (intros [Hoff Hne]; apply Hne;
                                     by rewrite (Hsame Hoff)).
  eexists. split; [done|]. simpl. by rewrite Hs.
Qed.

(** ** The event-subscription loop, iteration by iteration *)

Lemma dispatch_flow vm ev eventType :
  (dispatch vm ev eventType).2 =
  match eventType with
  | EventType_OnGuestPropertyChanged =>
      match ev_NewGuestPropertyChangedEvent ev with
      | Some e => Return (Some e)
      | None => Next tt
      end
  | _ => Next tt
  end.
Proof.
  destruct eventType; try done. simpl.
  by destruct (ev_NewGuestPropertyChangedEvent ev).
Qed.

(** How one iteration of the event-subscription loop ends. *)
Lemma passiveIteration_flow vm a :
  (passiveIteration vm a tt).2 =
  match pas_GetEvent a with
  | Err e => Return (Some e)
  | Ok None => Next tt
  | Ok (Some ev) =>
      match ev_GetType ev with
      | Err e => Return (Some e)
      | Ok eventType =>
          match pas_GetState a with
          | Err e => Return (Some e)
          | Ok state =>
              match (dispatch vm ev eventType).2 with
              | Return err => Return err
              | Next _ =>
                  if bool_decide (eventType = EventType_OnStateChanged
                                  /\ state = MachineState_PoweredOff)
                  then Return None
                  else match pas_EventProcessed a with
                       | Some e => Return (Some e)
                       | None => Next tt
                       end
              end
          end
      end
  end.
Proof.
  unfold passiveIteration.
  destruct (pas_GetEvent a) as [[ev|]|e]; simpl; try done.
  destruct (ev_GetType ev) as [ty|e]; simpl; try done.
  destruct (pas_GetState a) as [st|e]; simpl; try done.
  destruct (dispatch vm ev ty) as [dlog [[]|err]]; simpl; try done.
  set (P := ty = EventType_OnStateChanged /\ st = MachineState_PoweredOff).
  destruct (decide (ty = EventType_OnStateChanged)) as [Hty|Hty];
    destruct (decide (st = MachineState_PoweredOff)) as [Hst|Hst].
  - rewrite (bool_decide_eq_true_2 _ Hty), (bool_decide_eq_true_2 _ Hst).
    by rewrite (bool_decide_eq_true_2 P).
  - rewrite (bool_decide_eq_true_2 _ Hty), (bool_decide_eq_false_2 _ Hst).
    rewrite (bool_decide_eq_false_2 P) by (intros [_ ?]; done). simpl.
    by destruct (pas_EventProcessed a).
  - rewrite (bool_decide_eq_false_2 _ Hty).
    rewrite (bool_decide_eq_false_2 P) by (intros [? _]; done). simpl.
    by destruct (pas_EventProcessed a).
  - rewrite (bool_decide_eq_false_2 _ Hty).
    rewrite (bool_decide_eq_false_2 P) by (intros [? _]; done). simpl.
    by destruct (pas_EventProcessed a).
Qed.

Lemma passiveIteration_returns_nil_iff vm a :
  (passiveIteration vm a tt).2 = Return None <-> power_off_event a.
Proof.
  rewrite passiveIteration_flow. unfold power_off_event. split.
  - destruct (pas_GetEvent a) as [[ev|]|e]; try done.
    destruct (ev_GetType ev) as [ty|e] eqn:Hty; try done.
    destruct (pas_GetState a) as [st|e]; try done.
    rewrite dispatch_flow.
    destruct ty; try destruct (ev_NewGuestPropertyChangedEvent ev);
      try done; case_bool_decide as HP;
      try (destruct (pas_EventProcessed a); done);
      destruct HP as [? ->]; try done;
      intros _; exists ev; repeat split; done.
  - by intros (ev & -> & -> & ->).
Qed.

Lemma passiveIteration_quiet vm a :
  no_call_fails a -> ~ power_off_event a ->
  (passiveIteration vm a tt).2 = Next tt.
Proof.
  intros Hok Hnot.
  destruct (passiveIteration vm a tt).2 as [[]|[e|]] eqn:Hflow; [done| |].
  - exfalso. rewrite passiveIteration_flow in Hflow.
    unfold no_call_fails in Hok.
    destruct (pas_GetEvent a) as [[ev|]|e']; try done.
    destruct Hok as ([ty Hty] & [st Hst] & Hnew & Hack).
    rewrite Hty, Hst, dispatch_flow, Hnew, Hack in Hflow.
    destruct ty; case_bool_decide; done.
  - exfalso. by apply Hnot, (passiveIteration_returns_nil_iff vm).
Qed.

(** After a successful set-up, [passiveListenerLoop] stands where its
    loop stands. *)
Lemma passiveListenerLoop_started vm script n :
  pas_GetEventSource script = None ->
  pas_CreateListener script = None ->
  pas_RegisterListener script = None ->
  (passiveListenerLoop vm script n).2
  = (loop (passiveIteration vm) (passive_iteration script) n tt).2.
Proof.
  intros H1 H2 H3. unfold passiveListenerLoop. rewrite H1, H2, H3. simpl.
  by destruct (loop _ _ _ _) as [log [[]|err]].
Qed.

(** The calls deferred during the set-up are made, last first, when the
    loop returns. *)
Lemma passiveListenerLoop_log vm script n :
  pas_GetEventSource script = None ->
  pas_CreateListener script = None ->
  pas_RegisterListener script = None ->
  (passiveListenerLoop vm script n).1
  = RegisterListener interestingEvents false
    :: (loop (passiveIteration vm) (passive_iteration script) n tt).1
    ++ match (loop (passiveIteration vm) (passive_iteration script) n tt).2
       with
       | Next _ => []
       | Return _ =>
           [UnregisterListener; Listener_Release; EventSource_Release]
       end.
Proof.
  intros H1 H2 H3. unfold passiveListenerLoop. rewrite H1, H2, H3. simpl.
  destruct (loop _ _ _ _) as [log [[]|err]]; simpl.
  - by rewrite app_nil_r.
  - by rewrite <- !app_assoc.
Qed.

(** What an iteration returns, the loop returns, from then on. *)
Lemma loop_returns_from {St In} (body : In -> St -> Exec St) script n m s s'
    err :
  (loop body script n s).2 = Next s' ->
  (body (script n) s').2 = Return err ->
  (n < m)%nat ->
  (loop body script m s).2 = Return err.
Proof.
  intros Hn Hbody Hlt.
  assert (HS : (loop body script (S n) s).2 = Return err).
  { by rewrite (loop_S_Next _ _ _ _ _ Hn). }
  rewrite (loop_returned_le body script (S n) m s err); [done|lia|done].
Qed.

(** A loop of quiet iterations keeps running. *)
Lemma passive_keeps_running vm answers N :
  (forall i, (i < N)%nat ->
             no_call_fails (answers i) /\ ~ power_off_event (answers i)) ->
  forall n, (n <= N)%nat ->
    (loop (passiveIteration vm) answers n tt).2 = Next tt.
Proof.
  intros Hquiet. induction n as [|n IH]; intros Hle; [done|].
  rewrite (loop_S_Next _ _ _ _ tt) by (apply IH; lia).
  destruct (Hquiet n) as [Hok Hnot]; [lia|].
  by apply passiveIteration_quiet.
Qed.

(** ** Termination of the monitor *)

(** C3: an iteration of the event-subscription loop returns [nil]
    exactly when the delivered event is of kind state-changed and the
    state queried in that iteration is powered-off; on that exit the
    event is neither acknowledged nor released; in every other iteration
    that has dispatched its event, [EventProcessed] is called after the
    dispatch, and when it succeeds the event is released and the loop
    goes on. *)
Theorem event_loop_exits_exactly_on_power_off_event vm a :
  ((passiveIteration vm a tt).2 = Return None <-> power_off_event a)
  /\ (power_off_event a ->
      passiveIteration vm a tt = ([GetEvent 250], Return None))
  /\ (forall ev eventType state,
        pas_GetEvent a = Ok (Some ev) ->
        ev_GetType ev = Ok eventType ->
        pas_GetState a = Ok state ->
        (dispatch vm ev eventType).2 = Next tt ->
        ~ (eventType = EventType_OnStateChanged
           /\ state = MachineState_PoweredOff) ->
        passiveIteration vm a tt =
        match pas_EventProcessed a with
        | None =>
            (GetEvent 250 :: (dispatch vm ev eventType).1
               ++ [EventProcessed; Event_Release],
             Next tt)
        | Some e =>
            (GetEvent 250 :: (dispatch vm ev eventType).1
               ++ [EventProcessed],
             Return (Some e))
        end).
Proof.
  split; [apply passiveIteration_returns_nil_iff|]. split.
  - intros (ev & Hev & Hty & Hst). unfold passiveIteration.
    answer Hev. answer Hty. by answer Hst.
  - intros ev ty st Hev Hty Hst Hd Hnot. unfold passiveIteration.
    answer Hev. answer Hty. answer Hst.
    destruct (dispatch vm ev ty) as [dlog [[]|err]]; [|done]. simpl.
    assert (Hexit : bool_decide (ty = EventType_OnStateChanged)
                    && bool_decide (st = MachineState_PoweredOff) = false).
    { apply andb_false_iff.
      destruct (decide (ty = EventType_OnStateChanged)) as [Hy|Hn].
      - right. apply bool_decide_eq_false_2. intros Hoff. by apply Hnot.
      - left. by apply bool_decide_eq_false_2. }
    rewrite Hexit. by destruct (pas_EventProcessed a).
Qed.

(** C5: a timed-out wait ([GetEvent] answering a [nil] event) is no
    error and the loop goes on waiting; an error of the event-source
    acquisition, of the creation or registration of the listener, of
    [GetEvent], of the state query or of [EventProcessed] ends
    [passiveListenerLoop], which returns that error, and with it
    [Run]. *)
Theorem event_loop_timeout_continues_and_errors_abort vm :
  (forall a, pas_GetEvent a = Ok None ->
             passiveIteration vm a tt = ([GetEvent 250], Next tt))
  /\ (forall script n e,
        pas_GetEventSource script = Some e ->
        passiveListenerLoop vm script n = ([], Return (Some e)))
  /\ (forall script n e,
        pas_GetEventSource script = None ->
        pas_CreateListener script = Some e ->
        passiveListenerLoop vm script n
        = ([EventSource_Release], Return (Some e)))
  /\ (forall script n e,
        pas_GetEventSource script = None ->
        pas_CreateListener script = None ->
        pas_RegisterListener script = Some e ->
        passiveListenerLoop vm script n
        = ([RegisterListener interestingEvents false;
            Listener_Release; EventSource_Release], Return (Some e)))
  /\ (forall a e, pas_GetEvent a = Err e ->
                  passiveIteration vm a tt = ([GetEvent 250], Return (Some e)))
  /\ (forall a ev e,
        pas_GetEvent a = Ok (Some ev) -> ev_GetType ev = Err e ->
        passiveIteration vm a tt = ([GetEvent 250], Return (Some e)))
  /\ (forall a ev eventType e,
        pas_GetEvent a = Ok (Some ev) -> ev_GetType ev = Ok eventType ->
        pas_GetState a = Err e ->
        passiveIteration vm a tt = ([GetEvent 250], Return (Some e)))
  /\ (forall a ev eventType state e,
        pas_GetEvent a = Ok (Some ev) -> ev_GetType ev = Ok eventType ->
        pas_GetState a = Ok state ->
        (dispatch vm ev eventType).2 = Next tt ->
        ~ (eventType = EventType_OnStateChanged
           /\ state = MachineState_PoweredOff) ->
        pas_EventProcessed a = Some e ->
        (passiveIteration vm a tt).2 = Return (Some e))
  /\ (forall script polling n m err,
        pas_GetEventSource script = None ->
        pas_CreateListener script = None ->
        pas_RegisterListener script = None ->
        status (passiveListenerLoop vm script n) = None ->
        (passiveIteration vm (passive_iteration script n) tt).2
        = Return err ->
        (n < m)%nat ->
        status (passiveListenerLoop vm script m) = Some err
        /\ (Run vm true script polling m).2 = Some err).
Proof.
  repeat apply conj.
  - intros a Ha. unfold passiveIteration. by answer Ha.
  - intros script n e H1. unfold passiveListenerLoop. by answer H1.
  - intros script n e H1 H2. unfold passiveListenerLoop.
    answer H1. by answer H2.
  - intros script n e H1 H2 H3. unfold passiveListenerLoop.
    answer H1. answer H2. by answer H3.
  - intros a e Ha. unfold passiveIteration. by answer Ha.
  - intros a ev e Ha Hty. unfold passiveIteration. answer Ha. by answer Hty.
  - intros a ev ty e Ha Hty Hst. unfold passiveIteration.
    answer Ha. answer Hty. by answer Hst.
  - intros a ev ty st e Ha Hty Hst Hd Hnot Hack.
    rewrite passiveIteration_flow, Ha, Hty, Hst, Hd, Hack.
    by rewrite bool_decide_eq_false_2.
  - intros script polling n m err H1 H2 H3 Hrun Hret Hlt.
    assert (Hm : status (passiveListenerLoop vm script m) = Some err).
    { apply status_None in Hrun as [[] Hn].
      rewrite passiveListenerLoop_started in Hn by done.
      apply status_Return. rewrite passiveListenerLoop_started by done.
      by apply (loop_returns_from _ _ n m tt tt). }
    split; [done|]. unfold Run. by simpl.
Qed.

(** C2, as the code has it: when no call fails, the polling loop returns
    [nil] in the first iteration [N] in which the state becomes
    powered-off, that is, whose state query answers powered-off while
    the state recorded before it (read in iteration [N - 1], or before
    the loop when [N] is 0) was not; the states before may be any, the
    initial one included, as long as none of them turned powered-off.
    The event-subscription loop returns [nil] in the first iteration
    that delivers a state-changed event while the queried state is
    powered-off.  Neither returns before. *)
Theorem monitor_returns_at_first_power_off vm passive polling (N : nat) :
  ((exists l, initial_EnumerateGuestProperties polling = Ok l) ->
   (forall i, (i < N)%nat ->
      exists state previous,
        poll_GetState (poll_iteration polling i) = Ok state
        /\ recorded_before polling i = Ok previous
        /\ (state = MachineState_PoweredOff ->
            previous = MachineState_PoweredOff)
        /\ exists l,
             poll_EnumerateGuestProperties (poll_iteration polling i)
             = Ok l) ->
   poll_GetState (poll_iteration polling N) = Ok MachineState_PoweredOff ->
   (exists previous, recorded_before polling N = Ok previous
                     /\ previous <> MachineState_PoweredOff) ->
   (forall n, (n <= N)%nat -> (Run vm false passive polling n).2 = None)
   /\ (forall n, (N < n)%nat ->
                 (Run vm false passive polling n).2 = Some None))
  /\
  (pas_GetEventSource passive = None ->
   pas_CreateListener passive = None ->
   pas_RegisterListener passive = None ->
   (forall i, (i < N)%nat ->
      no_call_fails (passive_iteration passive i)
      /\ ~ power_off_event (passive_iteration passive i)) ->
   power_off_event (passive_iteration passive N) ->
   (forall n, (n <= N)%nat -> (Run vm true passive polling n).2 = None)
   /\ (forall n, (N < n)%nat ->
                 (Run vm true passive polling n).2 = Some None)).
Proof.
  split.
  - intros [l0 Hl0] Hquiet Hoff (previous & Hprevious & Hon).
    assert (Hs0 : exists s0, initial_GetState polling = Ok s0).
    { destruct N as [|N]; [by exists previous|].
      destruct (Hquiet 0%nat) as (_ & s0 & _ & Hs0 & _); [lia|].
      by exists s0. }
    destruct Hs0 as [s0 Hs0]. unfold Run. simpl.
    set (v0 := {| previousState := s0;
                  previousProperties := propertyMapOf l0 |}).
    assert (Hrun := polling_keeps_running vm polling s0 (propertyMapOf l0) N
                      Hs0 Hquiet).
    split; intros n Hn; rewrite (pollingLoop_started vm polling n s0 l0)
      by done.
    + destruct (Hrun n Hn) as (v' & Hv' & _). by apply status_Next in Hv'.
    + destruct (Hrun N (le_n N)) as (v' & Hv' & Hprev).
      rewrite Hprevious in Hprev. injection Hprev as ->.
      apply status_Return.
      apply (loop_returns_from _ _ N n v0 v'); [done| |done].
      rewrite pollingIteration_flow, Hoff.
      rewrite bool_decide_eq_true_2; [done|]. split; [done|congruence].
  - intros H1 H2 H3 Hquiet Hoff. unfold Run. simpl.
    assert (Hrun := passive_keeps_running vm (passive_iteration passive) N
                      Hquiet).
    split; intros n Hn.
    + apply status_Next with tt.
      rewrite passiveListenerLoop_started by done. by apply Hrun.
    + apply status_Return. rewrite passiveListenerLoop_started by done.
      apply (loop_returns_from _ _ N n tt tt); [by apply Hrun| |done].
      by apply passiveIteration_returns_nil_iff.
Qed.

(** C10, as the code has it: when the machine is powered-off as the
    polling loop starts and every state query succeeds and answers
    powered-off, the loop never returns [nil]; while the property
    enumerations succeed it does not return at all, and the one way out
    is the error of a failed property enumeration. *)
Theorem polling_started_powered_off_never_returns_nil vm script :
  initial_GetState script = Ok MachineState_PoweredOff ->
  (forall i, poll_GetState (poll_iteration script i)
             = Ok MachineState_PoweredOff) ->
  (forall n, status (pollingLoop vm script n) <> Some None)
  /\ ((exists l, initial_EnumerateGuestProperties script = Ok l) ->
      (forall i, exists l,
          poll_EnumerateGuestProperties (poll_iteration script i) = Ok l) ->
      forall n, status (pollingLoop vm script n) = None)
  /\ (forall n e,
        status (pollingLoop vm script n) = Some (Some e) ->
        initial_EnumerateGuestProperties script = Err e
        \/ exists i, (i < n)%nat /\
              poll_EnumerateGuestProperties (poll_iteration script i)
              = Err e).
Proof.
  intros Hinit Hoff.
  assert (Hstay : forall l0 n,
            initial_EnumerateGuestProperties script = Ok l0 ->
            match (pollingLoop vm script n).2 with
            | Next v' => previousState v' = MachineState_PoweredOff
            | Return None => False
            | Return (Some e) =>
                exists i, (i < n)%nat /\
                  poll_EnumerateGuestProperties (poll_iteration script i)
                  = Err e
            end).
  { intros l0 n Hl0.
    rewrite (pollingLoop_started vm script n MachineState_PoweredOff l0)
      by done.
    by apply polling_stays_powered_off. }
  assert (Hfail : forall e n,
            initial_EnumerateGuestProperties script = Err e ->
            pollingLoop vm script n = ([], Return (Some e))).
  { intros e n He. unfold pollingLoop. rewrite Hinit. simpl. by rewrite He. }
  split; [|split].
  - intros n. unfold status.
    destruct (initial_EnumerateGuestProperties script) as [l0|e] eqn:Hl0.
    + specialize (Hstay l0 n eq_refl).
      by destruct (pollingLoop vm script n).2 as [v'|[e|]].
    + by rewrite (Hfail e n).
  - intros [l0 Hl0] Hok n. unfold status.
    specialize (Hstay l0 n Hl0).
    destruct (pollingLoop vm script n).2 as [v'|[e|]]; [done| |done].
    destruct Hstay as (i & _ & He). destruct (Hok i) as [l Hl]. congruence.
  - intros n e. unfold status.
    destruct (initial_EnumerateGuestProperties script) as [l0|e0] eqn:Hl0.
    + specialize (Hstay l0 n eq_refl).
      destruct (pollingLoop vm script n).2 as [v'|[e'|]]; try done.
      intros [= ->]. by right.
    + rewrite (Hfail e0 n) by done. simpl. intros [= ->]. by left.
Qed.

(** ** Dispatch of a guest-property event *)

Lemma dispatchGuestProperty_lookup vm decoding (i : nat) h :
  eventHandlers vm !! i = Some h ->
  dispatchGuestProperty vm decoding !! i =
  Some (OnGuestPropertyChanged h (dec_GetName (decoding i)).1
          (dec_GetValue (decoding i)).1 (dec_UnixNano (decoding i))
          (dec_GetFlags (decoding i)).1).
Proof.
  intros Hh. unfold dispatchGuestProperty.
  rewrite list_lookup_imap, Hh. done.
Qed.

(** C7: when the event-subscription loop dispatches a guest-property
    event, the observer served in turn [i] receives the strings the
    getters answer and the clock reading taken for it; a getter that
    fails contributes the empty string; and whatever the getters
    answer, the iteration goes on to acknowledge and release the event
    and the loop continues. *)
Theorem guest_property_decode_failures_are_tolerated vm :
  (forall decoding (i : nat) h,
      eventHandlers vm !! i = Some h ->
      dispatchGuestProperty vm decoding !! i =
      Some (OnGuestPropertyChanged h (dec_GetName (decoding i)).1
              (dec_GetValue (decoding i)).1 (dec_UnixNano (decoding i))
              (dec_GetFlags (decoding i)).1))
  /\ (forall decoding (i : nat) h,
        eventHandlers vm !! i = Some h ->
        zero_on_failure (dec_GetName (decoding i)) ->
        zero_on_failure (dec_GetValue (decoding i)) ->
        zero_on_failure (dec_GetFlags (decoding i)) ->
        exists name value flags,
          dispatchGuestProperty vm decoding !! i =
          Some (OnGuestPropertyChanged h name value
                  (dec_UnixNano (decoding i)) flags)
          /\ ((dec_GetName (decoding i)).2 <> None -> name = "")
          /\ ((dec_GetValue (decoding i)).2 <> None -> value = "")
          /\ ((dec_GetFlags (decoding i)).2 <> None -> flags = "")
          /\ ((dec_GetName (decoding i)).2 = None ->
              name = (dec_GetName (decoding i)).1)
          /\ ((dec_GetValue (decoding i)).2 = None ->
              value = (dec_GetValue (decoding i)).1)
          /\ ((dec_GetFlags (decoding i)).2 = None ->
              flags = (dec_GetFlags (decoding i)).1))
  /\ (forall a ev state,
        pas_GetEvent a = Ok (Some ev) ->
        ev_GetType ev = Ok EventType_OnGuestPropertyChanged ->
        pas_GetState a = Ok state ->
        ev_NewGuestPropertyChangedEvent ev = None ->
        pas_EventProcessed a = None ->
        passiveIteration vm a tt =
        (GetEvent 250 :: dispatchGuestProperty vm (ev_decoding ev)
           ++ [EventProcessed; Event_Release],
         Next tt)).
Proof.
  split; [apply dispatchGuestProperty_lookup|]. split.
  - intros decoding i h Hh Hn Hv Hf.
    exists (dec_GetName (decoding i)).1, (dec_GetValue (decoding i)).1,
           (dec_GetFlags (decoding i)).1.
    split; [by apply dispatchGuestProperty_lookup|].
    repeat split; auto.
  - intros a ev st Hev Hty Hst Hnew Hack. unfold passiveIteration.
    answer Hev. answer Hty. answer Hst. answer Hnew. by answer Hack.
Qed.

(** ** Teardown *)

(** C8: [Release] unlocks the session, waits one second, releases the
    storage controller, unregisters the machine in full-cleanup mode,
    deletes the media that returned (and waits for the deletion), and
    releases the machine handle, in this order; the error of any step
    stops the sequence there and is returned. *)
Theorem release_tears_down_in_order (a : ReleaseAnswers) :
  Second = 1000000000
  /\ (forall media,
        rel_UnlockMachine a = None ->
        rel_Controller_Release a = None ->
        rel_Unregister a = Ok media ->
        rel_DeleteConfig a = None ->
        rel_WaitForCompletion a = None ->
        rel_Machine_Release a = None ->
        Release a =
        ([ UnlockMachine; Sleep Second; Controller_Release;
           Unregister CleanupMode_Full; DeleteConfig media;
           WaitForCompletion (-1); Machine_Release; Progress_Release ],
         Return None))
  /\ (forall e,
        rel_UnlockMachine a = Some e ->
        Release a = ([UnlockMachine], Return (Some e)))
  /\ (forall e,
        rel_UnlockMachine a = None ->
        rel_Controller_Release a = Some e ->
        Release a =
        ([UnlockMachine; Sleep Second; Controller_Release], Return (Some e)))
  /\ (forall e,
        rel_UnlockMachine a = None ->
        rel_Controller_Release a = None ->
        rel_Unregister a = Err e ->
        Release a =
        ([ UnlockMachine; Sleep Second; Controller_Release;
           Unregister CleanupMode_Full ], Return (Some e)))
  /\ (forall media e,
        rel_UnlockMachine a = None ->
        rel_Controller_Release a = None ->
        rel_Unregister a = Ok media ->
        rel_DeleteConfig a = Some e ->
        Release a =
        ([ UnlockMachine; Sleep Second; Controller_Release;
           Unregister CleanupMode_Full; DeleteConfig media ],
         Return (Some e)))
  /\ (forall media e,
        rel_UnlockMachine a = None ->
        rel_Controller_Release a = None ->
        rel_Unregister a = Ok media ->
        rel_DeleteConfig a = None ->
        rel_WaitForCompletion a = Some e ->
        Release a =
        ([ UnlockMachine; Sleep Second; Controller_Release;
           Unregister CleanupMode_Full; DeleteConfig media;
           WaitForCompletion (-1); Progress_Release ],
         Return (Some e)))
  /\ (forall media e,
        rel_UnlockMachine a = None ->
        rel_Controller_Release a = None ->
        rel_Unregister a = Ok media ->
        rel_DeleteConfig a = None ->
        rel_WaitForCompletion a = None ->
        rel_Machine_Release a = Some e ->
        Release a =
        ([ UnlockMachine; Sleep Second; Controller_Release;
           Unregister CleanupMode_Full; DeleteConfig media;
           WaitForCompletion (-1); Machine_Release; Progress_Release ],
         Return (Some e))).
Proof.
  unfold Release.
  repeat apply conj; [done|..]; intros;
    repeat match goal with
           | H : _ a = _ |- _ => rewrite H; clear H
           end; done.
Qed.

End Monitor.

(** * Concrete runs *)

(** Two observers, named by strings, registered in the order A, B. *)
Local Abbreviation AB := (registered ["A"; "B"]).

Lemma listed_valid : valid_range listed.
Proof. intros m. reflexivity. Qed.

(** An environment/version change with a deletion, as one poll sees
    it: [env] changed, [ver] is new, [same] kept its value (only its
    timestamp and flags moved), [old] is gone. *)
Example diff_before_after :
  diffProperties AB listed listed (propertyMapOf before) (propertyMapOf after)
  = [ OnGuestPropertyChanged "A" "env" "staging" 20 "";
      OnGuestPropertyChanged "B" "env" "staging" 20 "";
      OnGuestPropertyChanged "A" "ver" "1" 21 "";
      OnGuestPropertyChanged "B" "ver" "1" 21 "";
      OnGuestPropertyChanged "A" "old" "" 0 "";
      OnGuestPropertyChanged "B" "old" "" 0 "" ].
Proof. vm_compute. reflexivity. Qed.

(** No property at first, then one: a single notification. *)
Example diff_first_property :
  diffProperties AB listed listed (propertyMapOf [])
                 (propertyMapOf [mkGuestProperty "k" "v" 5 ""])
  = [ OnGuestPropertyChanged "A" "k" "v" 5 "";
      OnGuestPropertyChanged "B" "k" "v" 5 "" ].
Proof. vm_compute. reflexivity. Qed.

(** The last property disappears: a single deletion. *)
Example diff_last_property :
  diffProperties AB listed listed
                 (propertyMapOf [mkGuestProperty "k" "v" 5 ""])
                 (propertyMapOf [])
  = [ OnGuestPropertyChanged "A" "k" "" 0 "";
      OnGuestPropertyChanged "B" "k" "" 0 "" ].
Proof. vm_compute. reflexivity. Qed.

(** Two properties of one name in an enumeration: the last one wins. *)
Example propertyMapOf_last_wins :
  propertyMapOf [mkGuestProperty "k" "v" 5 ""; mkGuestProperty "k" "w" 6 ""]
  !! "k" = Some (mkGuestProperty "k" "w" 6 "").
Proof. vm_compute. reflexivity. Qed.

(** The machine powers off with no property change: the last iteration
    makes no call. *)
Example polling_power_off_is_silent :
  pollingIteration AB (polled MachineState_PoweredOff before)
                   {| previousState := MachineState_Running;
                      previousProperties := propertyMapOf before |}
  = ([], Return None).
Proof. reflexivity. Qed.

(** A guest-property event whose name cannot be decoded. *)
Example dispatch_undecoded_name :
  dispatchGuestProperty AB
    (fun i => {| dec_GetName := ("", Some "no name");
                 dec_GetValue := ("v", None);
                 dec_GetFlags := ("", None);
                 dec_UnixNano := 1000 + Z.of_nat i |})
  = [ OnGuestPropertyChanged "A" "" "v" 1000 "";
      OnGuestPropertyChanged "B" "" "v" 1001 "" ].
Proof. reflexivity. Qed.

(** The diff theorem at [before] and [after]. *)
Lemma polling_diff_witness :
  filter (named "env")
         (diffProperties AB listed listed (propertyMapOf before)
                         (propertyMapOf after))
  = [ OnGuestPropertyChanged "A" "env" "staging" 20 "";
      OnGuestPropertyChanged "B" "env" "staging" 20 "" ]
  /\ filter (named "old")
            (diffProperties AB listed listed (propertyMapOf before)
                            (propertyMapOf after))
     = [ OnGuestPropertyChanged "A" "old" "" 0 "";
         OnGuestPropertyChanged "B" "old" "" 0 "" ]
  /\ filter (named "same")
            (diffProperties AB listed listed (propertyMapOf before)
                            (propertyMapOf after))
     = [].
Proof.
  destruct (polling_diff_notifies_exactly_the_changes
              AB listed listed before after listed_valid listed_valid)
    as (Hchanged & Hdeleted & Hsame & _).
  split; [|split].
  - apply (Hchanged "env" (mkGuestProperty "env" "staging" 20 ""));
      [vm_compute; reflexivity|].
    right. exists (mkGuestProperty "env" "prod" 10 "").
    split; [vm_compute; reflexivity|discriminate].
  - apply (Hdeleted "old" (mkGuestProperty "old" "x" 11 ""));
      vm_compute; reflexivity.
  - apply (Hsame "same" (mkGuestProperty "same" "s" 22 "RDONLY")
                 (mkGuestProperty "same" "s" 12 ""));
      vm_compute; reflexivity.
Defined.

(** The ordering theorem at [before] and [after]: the notification for
    [ver] (new), at index 2, stands before the one for [old] (gone), at
    index 4. *)
Lemma polling_order_witness :
  diffProperties AB listed listed (propertyMapOf before) (propertyMapOf after)
  !! 2%nat = Some (OnGuestPropertyChanged "A" "ver" "1" 21 "")
  /\ diffProperties AB listed listed (propertyMapOf before)
                    (propertyMapOf after)
     !! 4%nat = Some (OnGuestPropertyChanged "A" "old" "" 0 "")
  /\ (2 < 4)%nat.
Proof.
  destruct (polling_notifies_changes_before_deletions
              AB listed listed before after listed_valid listed_valid)
    as (_ & Horder & _).
  split; [vm_compute; reflexivity|]. split; [vm_compute; reflexivity|].
  apply (Horder 2%nat 4%nat
                (OnGuestPropertyChanged "A" "ver" "1" 21 "")
                (OnGuestPropertyChanged "A" "old" "" 0 "") "ver" "old");
    try (vm_compute; reflexivity).
  exists (mkGuestProperty "ver" "1" 21 ""). vm_compute. reflexivity.
Defined.

(** Both loops on a shutdown in their third iteration: running after
    two iterations, returned [nil] after three.  The polling loop found
    the machine powered-off as it started, and saw it run since. *)
Lemma monitor_shutdown_witness :
  (Run AB false shutdown_events restarted_polling 2).2 = None
  /\ (Run AB false shutdown_events restarted_polling 3).2 = Some None
  /\ (Run AB true shutdown_events restarted_polling 2).2 = None
  /\ (Run AB true shutdown_events restarted_polling 3).2 = Some None.
Proof.
  destruct (monitor_returns_at_first_power_off
              AB shutdown_events restarted_polling 2) as [Hpolling Hpassive].
  destruct Hpolling as [Hrunning Hreturned].
  { exists before. reflexivity. }
  { intros [|[|i]] Hi; [| |lia].
    - exists MachineState_Running, MachineState_PoweredOff.
      split; [reflexivity|]. split; [reflexivity|].
      split; [discriminate|]. exists before. reflexivity.
    - exists MachineState_Running, MachineState_Running.
      split; [reflexivity|]. split; [reflexivity|].
      split; [discriminate|]. exists after. reflexivity. }
  { reflexivity. }
  { exists MachineState_Running. split; [reflexivity|discriminate]. }
  destruct Hpassive as [Hwaiting Hexited]; try reflexivity.
  { intros [|[|i]] Hi; [| |lia]; split.
    - exact I.
    - intros (ev & Hev & _). discriminate.
    - simpl. repeat split; eauto.
    - intros (ev & _ & _ & Hst). discriminate. }
  { eexists. repeat split; reflexivity. }
  split; [|split; [|split]].
  - apply Hrunning. lia.
  - apply Hreturned. lia.
  - apply Hwaiting. lia.
  - apply Hexited. lia.
Defined.

(** The machine is reported powered-off from iteration 1 on and no call
    fails, yet the event-subscription loop has not returned after three
    iterations, nor does it ever: no event of kind state-changed is
    delivered. *)
Lemma event_loop_misses_power_off :
  pas_GetState (passive_iteration power_off_without_state_changed 0)
  = Ok MachineState_Running
  /\ (forall i, (1 <= i)%nat ->
        pas_GetState (passive_iteration power_off_without_state_changed i)
        = Ok MachineState_PoweredOff)
  /\ (forall i, no_call_fails
                  (passive_iteration power_off_without_state_changed i))
  /\ (Run AB true power_off_without_state_changed shutdown_polling 3).2
     = None
  /\ (forall n,
        (Run AB true power_off_without_state_changed shutdown_polling n).2
        = None).
Proof.
  split; [reflexivity|]. split; [by intros [|i] Hi; [lia|]|].
  assert (Hok : forall i, no_call_fails
                  (passive_iteration power_off_without_state_changed i)).
  { intros [|i]; simpl; repeat split; eauto. }
  split; [exact Hok|]. split; [reflexivity|].
  intros n. unfold Run. simpl. apply status_Next with tt.
  rewrite passiveListenerLoop_started by reflexivity.
  apply (passive_keeps_running _ _ n); [|lia].
  intros i _. split; [apply Hok|].
  intros (ev & Hev & Hty & _). destruct i; simpl in Hev;
    injection Hev as <-; discriminate.
Qed.

(** Powered-off from the start and for ever, enumerations succeeding:
    the polling loop is still running after seven iterations. *)
Lemma polling_already_off_witness :
  status (pollingLoop AB already_off 7) = None.
Proof.
  destruct (polling_started_powered_off_never_returns_nil AB already_off)
    as (_ & Hrunning & _); [reflexivity|intros i; reflexivity|].
  apply Hrunning; [by exists before|]. intros i. by exists before.
Defined.

(** Powered-off from the start and for ever, but the first enumeration
    of the loop fails: the polling loop has terminated after one
    iteration, with that error. *)
Lemma polling_already_off_can_return :
  initial_GetState already_off_enumeration_fails
  = Ok MachineState_PoweredOff
  /\ (forall i,
        poll_GetState (poll_iteration already_off_enumeration_fails i)
        = Ok MachineState_PoweredOff)
  /\ pollingLoop AB already_off_enumeration_fails 1
     = ([], Return (Some "session closed")).
Proof. split; [reflexivity|]. split; [intros i|]; reflexivity. Qed.

(** The exit of the event-subscription loop on a power-off event, and an
    ordinary iteration beside it. *)
Lemma event_exit_witness :
  passiveIteration AB
    (delivered EventType_OnStateChanged MachineState_PoweredOff) tt
  = ([GetEvent 250], Return None)
  /\ passiveIteration AB
       (delivered EventType_OnStateChanged MachineState_Running) tt
     = ([GetEvent 250; EventProcessed; Event_Release], Next tt).
Proof.
  split.
  - apply (event_loop_exits_exactly_on_power_off_event AB).
    eexists. repeat split; reflexivity.
  - destruct (event_loop_exits_exactly_on_power_off_event AB
                (delivered EventType_OnStateChanged MachineState_Running))
      as (_ & _ & Hother).
    apply (Hother (event_of_kind EventType_OnStateChanged)
                  EventType_OnStateChanged MachineState_Running);
      try reflexivity.
    intros [_ Hoff]. discriminate.
Defined.

(** A failed state query ends the polling loop like a power-off. *)
Lemma polling_query_failure_witness :
  pollingIteration AB
    {| poll_GetState := Err "unreachable";
       poll_EnumerateGuestProperties := Ok after;
       poll_rangeCurrent := listed;
       poll_rangePrevious := listed |}
    {| previousState := MachineState_Running;
       previousProperties := propertyMapOf before |}
  = pollingIteration AB (polled MachineState_PoweredOff after)
      {| previousState := MachineState_Running;
         previousProperties := propertyMapOf before |}.
Proof.
  etransitivity.
  - apply polling_iteration_returns_nil_iff with "unreachable". reflexivity.
  - symmetry. apply polling_iteration_returns_nil_iff;
      [reflexivity|discriminate].
Defined.

(** A time-out, and a listener that cannot be registered. *)
Lemma event_errors_witness :
  passiveIteration AB timed_out tt = ([GetEvent 250], Next tt)
  /\ passiveListenerLoop AB
       {| pas_GetEventSource := None;
          pas_CreateListener := None;
          pas_RegisterListener := Some "refused";
          passive_iteration := fun _ => timed_out |} 5
     = ([ RegisterListener interestingEvents false;
          Listener_Release; EventSource_Release ], Return (Some "refused")).
Proof.
  destruct (event_loop_timeout_continues_and_errors_abort AB)
    as (Htimeout & _ & _ & Hregister & _).
  split.
  - by apply Htimeout.
  - by apply Hregister.
Defined.


(** The second observer is served while the name cannot be decoded. *)
Lemma undecoded_name_witness :
  exists value flags,
    dispatchGuestProperty AB
      (fun i => {| dec_GetName := ("", Some "no name");
                   dec_GetValue := ("v", None);
                   dec_GetFlags := ("", None);
                   dec_UnixNano := 1000 + Z.of_nat i |})
    !! 1%nat = Some (OnGuestPropertyChanged "B" "" value 1001 flags).
Proof.
  destruct (guest_property_decode_failures_are_tolerated AB)
    as (_ & Hzero & _).
  destruct (Hzero
              (fun i => {| dec_GetName := ("", Some "no name");
                           dec_GetValue := ("v", None);
                           dec_GetFlags := ("", None);
                           dec_UnixNano := 1000 + Z.of_nat i |})
              1%nat "B")
    as (name & value & flags & Hcall & Hname & _);
    try reflexivity; try (intros H; simpl in *; congruence).
  exists value, flags. rewrite Hcall, Hname; [reflexivity|discriminate].
Defined.

(** A teardown in which every step succeeds, and one in which the
    machine cannot be unregistered. *)
Lemma release_witness :
  @Release string
    {| rel_UnlockMachine := None;
       rel_Controller_Release := None;
       rel_Unregister := Ok ["raw.vmdk"];
       rel_DeleteConfig := None;
       rel_WaitForCompletion := None;
       rel_Machine_Release := None |}
  = ([ UnlockMachine; Sleep 1000000000; Controller_Release;
       Unregister CleanupMode_Full; DeleteConfig ["raw.vmdk"];
       WaitForCompletion (-1); Machine_Release; Progress_Release ],
     Return None)
  /\ @Release string
       {| rel_UnlockMachine := None;
          rel_Controller_Release := None;
          rel_Unregister := Err "locked";
          rel_DeleteConfig := None;
          rel_WaitForCompletion := None;
          rel_Machine_Release := None |}
     = ([ UnlockMachine; Sleep 1000000000; Controller_Release;
          Unregister CleanupMode_Full ], Return (Some "locked")).
Proof.
  split.
  - apply (@release_tears_down_in_order string); reflexivity.
  - apply (@release_tears_down_in_order string); reflexivity.
Defined.

(** * More of the monitor: snapshots, pacing, provenance of errors *)

Section MonitorRuns.

Context {Handler : Type}.

Local Abbreviation VM := (@VirtualMachine Handler).
Local Abbreviation Log := (list (@Call Handler)).
Local Abbreviation PropertyMap := (gmap string GuestProperty).

(** Two snapshots agree on the value of every property name, whatever
    the timestamps and flags. *)
Definition same_values (m1 m2 : PropertyMap) : Prop :=
  forall k, Value <$> (m1 !! k) = Value <$> (m2 !! k).

Definition is_sleep (c : @Call Handler) : bool :=
  match c with
  | Sleep _ => true
  | _ => false
  end.

(** The calls of a log that are sleeps. *)
Definition sleeps (log : Log) : Log :=
  filter (fun c => is_sleep c = true) log.

(** The entries of a snapshot that the first range reports, and those
    of the previous snapshot that the second range reports. *)
Definition reported (S0 : PropertyMap) (entry : string * GuestProperty)
  : Prop :=
  changed S0 entry.1 entry.2 = true.

Definition gone (S1 : PropertyMap) (entry : string * GuestProperty) : Prop :=
  S1 !! entry.1 = None.

(** The calls the set-up of [passiveListenerLoop] defers. *)
Definition is_release (c : @Call Handler) : bool :=
  match c with
  | UnregisterListener | Listener_Release | EventSource_Release => true
  | _ => false
  end.

(** What [passiveListenerLoop] has deferred by the time it returns,
    last deferred first: nothing when the event source could not be
    had, and one more release for every step of the set-up that
    succeeded. *)
Definition deferred_releases (script : PassiveScript) : Log :=
  match pas_GetEventSource script with
  | Some _ => []
  | None =>
      match pas_CreateListener script with
      | Some _ => [EventSource_Release]
      | None =>
          match pas_RegisterListener script with
          | Some _ => [Listener_Release; EventSource_Release]
          | None =>
              [UnregisterListener; Listener_Release; EventSource_Release]
          end
      end
  end.

Global Instance reported_dec S0 entry : Decision (reported S0 entry).
Proof. unfold reported. apply _. Defined.

Global Instance gone_dec S1 entry : Decision (gone S1 entry).
Proof. unfold gone. apply _. Defined.

(** ** getPropertyMap *)

Lemma filter_nothing {A} (P : A -> Prop) `{!forall x, Decision (P x)}
    (l : list A) :
  (forall x, x ∈ l -> ~ P x) -> filter P l = [].
Proof.
  induction l as [|x l IH]; intros Hnone; [done|].
  rewrite filter_cons_False by (apply Hnone; left).
  apply IH. intros y Hy. apply Hnone. by right.
Qed.

Lemma propertyMapOf_snoc (l : list GuestProperty) (p : GuestProperty) :
  propertyMapOf (l ++ [p]) = <[Name p := p]> (propertyMapOf l).
Proof. unfold propertyMapOf. by rewrite foldl_app. Qed.

(** X1: a snapshot maps a name to the last property of that name in the
    enumeration, and to nothing when the enumeration has no property of
    that name. *)
Theorem propertyMapOf_lookup_last (l : list GuestProperty) (k : string) :
  propertyMapOf l !! k = last (filter (fun p => Name p = k) l)
  /\ (propertyMapOf l !! k = None <-> forall p, p ∈ l -> Name p <> k).
Proof.
  assert (Hlast : propertyMapOf l !! k
                  = last (filter (fun p => Name p = k) l)).
  { induction l as [|p l IH] using rev_ind; [done|].
    rewrite propertyMapOf_snoc, filter_app.
    destruct (decide (Name p = k)) as [<-|Hne].
    - rewrite lookup_insert_eq, filter_cons_True by done.
      by rewrite filter_nil, last_snoc.
    - rewrite lookup_insert_ne, filter_cons_False by done.
      by rewrite filter_nil, app_nil_r. }
  split; [done|]. rewrite Hlast, last_None. split.
  - intros Hnil p Hp Hk.
    assert (Hin : p ∈ filter (fun p => Name p = k) l)
      by (by apply list_elem_of_filter).
    rewrite Hnil in Hin. by apply elem_of_nil in Hin.
  - intros Hnone. apply filter_nothing. intros p Hp. by apply Hnone.
Qed.

(** ** The polling loop, run by run *)

(** An iteration of the polling loop either returns without a call, or
    makes the calls of the diff, sleeps and goes on with the state and
    the snapshot it has just read. *)
Lemma pollingIteration_cases (vm : VM) a v :
  (exists err, pollingIteration vm a v = ([], Return err))
  \/ (exists state l,
        poll_GetState a = Ok state
        /\ poll_EnumerateGuestProperties a = Ok l
        /\ pollingIteration vm a v =
           (diffProperties vm (poll_rangeCurrent a) (poll_rangePrevious a)
                           (previousProperties v) (propertyMapOf l)
            ++ [Sleep (250 * Millisecond)],
            Next {| previousState := state;
                    previousProperties := propertyMapOf l |})).
Proof.
  destruct (poll_GetState a) as [state|e] eqn:Hstate.
  - destruct (decide (state = MachineState_PoweredOff
                      /\ state <> previousState v)) as [[Hoff Hdiff]|Hnot].
    + left. exists None. unfold pollingIteration. rewrite Hstate.
      rewrite (bool_decide_eq_true_2 _ Hoff).
      by rewrite (bool_decide_eq_false_2 _ Hdiff).
    + destruct (poll_EnumerateGuestProperties a) as [l|e] eqn:Henum.
      * right. exists state, l. split; [done|]. split; [done|].
        apply pollingIteration_continue; [done| |done].
        intros Hoff. destruct (decide (state = previousState v)); [done|].
        exfalso. by apply Hnot.
      * left. exists (Some e). unfold pollingIteration.
        rewrite Hstate, Henum.
        destruct (bool_decide (state = MachineState_PoweredOff)) eqn:Hoff;
          [|done].
        apply bool_decide_eq_true in Hoff.
        destruct (decide (state = previousState v)) as [Hsame|Hdiff];
          [|exfalso; by apply Hnot].
        by rewrite (bool_decide_eq_true_2 _ Hsame).
  - left. exists None. unfold pollingIteration. by rewrite Hstate.
Qed.

Lemma loop_S {St In} (body : In -> St -> @Exec Handler St) script n s :
  loop body script (S n) s =
  bind (loop body script n s) (fun s' => body (script n) s').
Proof. done. Qed.

(** A [pollingLoop] that is in its loop has got past its two initial
    queries. *)
Lemma pollingLoop_running (vm : VM) script n v :
  (pollingLoop vm script n).2 = Next v ->
  exists state l, initial_GetState script = Ok state
                  /\ initial_EnumerateGuestProperties script = Ok l.
Proof.
  unfold pollingLoop.
  destruct (initial_GetState script) as [state|e]; [|done].
  destruct (initial_EnumerateGuestProperties script) as [l|e]; [|done].
  intros _. by exists state, l.
Qed.

Lemma sleeps_diffProperties (vm : VM) r1 r0 (S0 S1 : PropertyMap) :
  sleeps (diffProperties vm r1 r0 S0 S1) = [].
Proof.
  apply filter_nothing. intros c Hc.
  assert (Hn := diffProperties_notifications vm r1 r0 S0 S1).
  rewrite Forall_forall in Hn. specialize (Hn c Hc). by destruct c.
Qed.

Lemma loop_sleeps (vm : VM) answers n v0 :
  exists k,
    sleeps (loop (pollingIteration vm) answers n v0).1
    = replicate k (Sleep (250 * Millisecond))
    /\ match (loop (pollingIteration vm) answers n v0).2 with
       | Next _ => k = n
       | Return _ => (k < n)%nat
       end.
Proof.
  induction n as [|n (k & Hk & Hflow)]; [by exists 0%nat|].
  rewrite loop_S.
  destruct (loop (pollingIteration vm) answers n v0) as [log [v|err]];
    simpl in *.
  - subst k.
    destruct (pollingIteration_cases vm (answers n) v)
      as [[err ->]|(state & l & _ & _ & ->)]; simpl.
    + exists n. rewrite app_nil_r. split; [done|lia].
    + exists (S n). split; [|done].
      unfold sleeps in *. rewrite !filter_app, Hk.
      fold (sleeps (diffProperties vm (poll_rangeCurrent (answers n))
                      (poll_rangePrevious (answers n))
                      (previousProperties v) (propertyMapOf l))).
      rewrite sleeps_diffProperties. simpl.
      rewrite filter_cons_True by done.
      rewrite filter_nil. by rewrite <- replicate_S_end.
  - exists k. split; [done|lia].
Qed.

(** X2: the polling loop sleeps 250 ms once in every iteration it
    completes: while it runs it has slept as often as it has iterated,
    and when it has returned it has slept once for every iteration
    before the one that returned. *)
Theorem polling_sleeps_once_per_iteration (vm : VM) script n :
  exists k,
    sleeps (pollingLoop vm script n).1
    = replicate k (Sleep (250 * Millisecond))
    /\ (k <= n)%nat
    /\ (status (pollingLoop vm script n) = None -> k = n)
    /\ (forall state l,
          initial_GetState script = Ok state ->
          initial_EnumerateGuestProperties script = Ok l ->
          status (pollingLoop vm script n) <> None -> (k < n)%nat).
Proof.
  destruct (initial_GetState script) as [state|e] eqn:Hstate.
  - destruct (initial_EnumerateGuestProperties script) as [l|e] eqn:Hl.
    + rewrite (pollingLoop_started vm script n state l) by done.
      destruct (loop_sleeps vm (poll_iteration script) n
                  {| previousState := state;
                     previousProperties := propertyMapOf l |})
        as (k & Hk & Hflow).
      exists k. split; [done|]. unfold status.
      destruct (loop _ _ _ _).2; repeat split; try done; try lia.
    + exists 0%nat. unfold pollingLoop. rewrite Hstate, Hl. simpl.
      repeat split; try done; lia.
  - exists 0%nat. unfold pollingLoop. rewrite Hstate. simpl.
    repeat split; try done; lia.
Qed.

Lemma pollingIteration_returns_error (vm : VM) a v e :
  (pollingIteration vm a v).2 = Return (Some e) ->
  poll_EnumerateGuestProperties a = Err e
  /\ exists state, poll_GetState a = Ok state.
Proof.
  rewrite pollingIteration_flow.
  destruct (poll_GetState a) as [state|]; [|done].
  case_bool_decide; [done|].
  destruct (poll_EnumerateGuestProperties a); [done|].
  intros [= ->]. split; [done|by exists state].
Qed.

Lemma loop_error_provenance (vm : VM) answers n v0 e :
  (loop (pollingIteration vm) answers n v0).2 = Return (Some e) ->
  exists i, (i < n)%nat
            /\ poll_EnumerateGuestProperties (answers i) = Err e
            /\ exists state, poll_GetState (answers i) = Ok state.
Proof.
  induction n as [|n IH]; [done|].
  destruct (loop (pollingIteration vm) answers n v0).2 as [v|err] eqn:Hn.
  - rewrite (loop_S_Next _ _ _ _ _ Hn). intros Hret.
    apply pollingIteration_returns_error in Hret as [Henum Hstate].
    exists n. split; [lia|done].
  - rewrite (loop_returned_S _ _ _ _ _ Hn), Hn. intros [= ->].
    destruct (IH eq_refl) as (i & Hi & Hrest). exists i. split; [lia|done].
Qed.

(** X3: an error returned by [pollingLoop] is the error of its initial
    state query or of a property enumeration, the initial one or one of
    an iteration whose state query succeeded; the error of a state
    query inside the loop is never returned. *)
Theorem polling_error_provenance (vm : VM) script n e :
  status (pollingLoop vm script n) = Some (Some e) ->
  initial_GetState script = Err e
  \/ ((exists state, initial_GetState script = Ok state)
      /\ initial_EnumerateGuestProperties script = Err e)
  \/ (exists i, (i < n)%nat
                /\ poll_EnumerateGuestProperties (poll_iteration script i)
                   = Err e
                /\ exists state,
                     poll_GetState (poll_iteration script i) = Ok state).
Proof.
  unfold status.
  destruct (initial_GetState script) as [state|e0] eqn:Hstate.
  - destruct (initial_EnumerateGuestProperties script) as [l|e0] eqn:Hl.
    + rewrite (pollingLoop_started vm script n state l) by done.
      destruct (loop _ _ _ _).2 as [v|[e'|]] eqn:Hflow; try done.
      intros [= ->]. right. right.
      by eapply loop_error_provenance.
    + unfold pollingLoop. rewrite Hstate, Hl. simpl. intros [= ->].
      right. left. split; [by exists state|done].
  - unfold pollingLoop. rewrite Hstate. simpl. intros [= ->]. by left.
Qed.

(** X4: when the polling loop goes on after an iteration, the state and
    the snapshot it carries into the next one are those this iteration
    read: the state its query answered and the map of the properties
    its enumeration answered. *)
Theorem polling_carries_the_last_reading (vm : VM) script n v :
  (pollingLoop vm script (S n)).2 = Next v ->
  exists state l,
    poll_GetState (poll_iteration script n) = Ok state
    /\ poll_EnumerateGuestProperties (poll_iteration script n) = Ok l
    /\ v = {| previousState := state;
              previousProperties := propertyMapOf l |}.
Proof.
  intros Hrun.
  destruct (pollingLoop_running vm script (S n) v Hrun)
    as (s0 & l0 & Hs0 & Hl0).
  rewrite (pollingLoop_started vm script (S n) s0 l0) in Hrun by done.
  rewrite loop_S in Hrun.
  destruct (loop (pollingIteration vm) (poll_iteration script) n _)
    as [log [v'|err]]; [|done].
  simpl in Hrun.
  destruct (pollingIteration_cases vm (poll_iteration script n) v')
    as [[err Hret]|(state & l & Hstate & Hl & Hgo)].
  - by rewrite Hret in Hrun.
  - rewrite Hgo in Hrun. simpl in Hrun. injection Hrun as <-.
    by exists state, l.
Qed.

(** ** Snapshots that differ in timestamps and flags only *)

Lemma same_values_sym (m1 m2 : PropertyMap) :
  same_values m1 m2 -> same_values m2 m1.
Proof. intros H k. by rewrite H. Qed.

Lemma same_values_trans (m1 m2 m3 : PropertyMap) :
  same_values m1 m2 -> same_values m2 m3 -> same_values m1 m3.
Proof. intros H1 H2 k. by rewrite H1, H2. Qed.

Lemma diffProperties_same_values (vm : VM) r1 r0 (S0 S1 : PropertyMap) :
  valid_range r1 -> valid_range r0 -> same_values S0 S1 ->
  diffProperties vm r1 r0 S0 S1 = [].
Proof.
  intros Hr1 Hr0 Hsame. unfold diffProperties, notifyChanged, notifyDeleted.
  rewrite !flat_map_all_nil; [done| |].
  - intros [k q] Hin. apply (valid_range_elem r0) in Hin; [|done].
    specialize (Hsame k). rewrite Hin in Hsame.
    by destruct (S1 !! k).
  - intros [k p] Hin. apply (valid_range_elem r1) in Hin; [|done].
    specialize (Hsame k). rewrite Hin in Hsame. unfold changed.
    destruct (S0 !! k) as [q|]; [|done].
    injection Hsame as ->. by rewrite String.eqb_refl.
Qed.

Lemma loop_quiet (vm : VM) answers n v0 (S : PropertyMap) :
  same_values S (previousProperties v0) ->
  (forall i, (i < n)%nat ->
     valid_range (poll_rangeCurrent (answers i))
     /\ valid_range (poll_rangePrevious (answers i))
     /\ forall l, poll_EnumerateGuestProperties (answers i) = Ok l ->
                  same_values S (propertyMapOf l)) ->
  Forall (fun c => c = Sleep (250 * Millisecond))
         (loop (pollingIteration vm) answers n v0).1
  /\ forall v, (loop (pollingIteration vm) answers n v0).2 = Next v ->
               same_values S (previousProperties v).
Proof.
  intros Hv0. induction n as [|n IH]; intros Hquiet.
  - split; [done|]. by intros v [= <-].
  - destruct IH as [Hlog Hinv]; [intros i Hi; apply Hquiet; lia|].
    rewrite loop_S.
    destruct (loop (pollingIteration vm) answers n v0) as [log [v|err]];
      simpl in *; [|done].
    destruct (Hquiet n) as (Hr1 & Hr0 & Hsame); [lia|].
    destruct (pollingIteration_cases vm (answers n) v)
      as [[err ->]|(state & l & _ & Hl & ->)]; simpl.
    + by rewrite app_nil_r.
    + rewrite diffProperties_same_values; try done.
      * split; [|intros v' [= <-]; by apply Hsame].
        apply Forall_app. split; [done|]. by apply Forall_singleton.
      * apply same_values_trans with S;
          [by apply same_values_sym, Hinv|by apply Hsame].
Qed.

(** X5: as long as every enumeration answers the same names with the
    same values as the initial one, whatever happens to timestamps and
    flags, the polling loop notifies no observer: all it does is
    sleep. *)
Theorem polling_is_silent_while_values_stay (vm : VM) script n l0 :
  initial_EnumerateGuestProperties script = Ok l0 ->
  (forall i, (i < n)%nat ->
     valid_range (poll_rangeCurrent (poll_iteration script i))
     /\ valid_range (poll_rangePrevious (poll_iteration script i))
     /\ forall l,
          poll_EnumerateGuestProperties (poll_iteration script i) = Ok l ->
          same_values (propertyMapOf l0) (propertyMapOf l)) ->
  Forall (fun c => c = Sleep (250 * Millisecond)) (pollingLoop vm script n).1.
Proof.
  intros Hl0 Hquiet.
  destruct (initial_GetState script) as [state|e] eqn:Hstate.
  - rewrite (pollingLoop_started vm script n state l0) by done.
    by apply (loop_quiet vm _ n _ (propertyMapOf l0)).
  - unfold pollingLoop. by rewrite Hstate.
Qed.

(** ** The size of a diff *)

Lemma length_flat_map_blocks {A B} (P : A -> Prop)
    `{!forall x, Decision (P x)} (g : A -> list B) (c : nat) (l : list A) :
  (forall x, P x -> length (g x) = c) ->
  (forall x, ~ P x -> g x = []) ->
  length (flat_map g l) = (c * length (filter P l))%nat.
Proof.
  intros Hyes Hno. induction l as [|x l IH]; [simpl; lia|].
  simpl. rewrite length_app, IH. destruct (decide (P x)) as [HP|HP].
  - rewrite filter_cons_True, (Hyes x) by done. simpl. lia.
  - rewrite filter_cons_False, (Hno x) by done. simpl. lia.
Qed.

(** X6: the diff of one polling iteration calls the observers once per
    observer for every entry of the current snapshot that is new or has
    another value, and once per observer for every entry of the
    previous snapshot whose name is gone; with no observer registered
    it makes no call. *)
Theorem polling_diff_call_count (vm : VM) r1 r0 (S0 S1 : PropertyMap) :
  valid_range r1 -> valid_range r0 ->
  length (diffProperties vm r1 r0 S0 S1)
  = (length (eventHandlers vm)
     * (length (filter (reported S0) (map_to_list S1))
        + length (filter (gone S1) (map_to_list S0))))%nat.
Proof.
  intros Hr1 Hr0. unfold diffProperties, notifyChanged, notifyDeleted.
  rewrite length_app.
  rewrite (length_flat_map_blocks (reported S0) _ (length (eventHandlers vm))).
  - rewrite (length_flat_map_blocks (gone S1) _ (length (eventHandlers vm))).
    + rewrite (Hr1 S1), (Hr0 S0). lia.
    + intros [k q] Hgone. unfold gone in Hgone. simpl in Hgone.
      rewrite Hgone. unfold notifyAll. by rewrite length_map.
    + intros [k q] Hstays. unfold gone in Hstays. simpl in Hstays.
      by destruct (S1 !! k).
  - intros [k p] Hrep. unfold reported in Hrep. simpl in Hrep.
    rewrite Hrep. unfold notifyAll. by rewrite length_map.
  - intros [k p] Hrep. unfold reported in Hrep. simpl in Hrep.
    by destruct (changed S0 k p).
Qed.

(** ** The event-subscription loop, run by run *)

Lemma dispatchGuestProperty_notifications (vm : VM) decoding :
  Forall (fun c => is_notification c = true)
         (dispatchGuestProperty vm decoding).
Proof.
  apply Forall_forall. intros c Hc.
  apply list_elem_of_lookup in Hc as [i Hi].
  unfold dispatchGuestProperty in Hi. rewrite list_lookup_imap in Hi.
  destruct (eventHandlers vm !! i); [|done]. by injection Hi as <-.
Qed.

(** An iteration that notifies nobody, with the calls [tl] at its
    end. *)
Ltac no_notes tl :=
  exists [], tl; split; [done|]; split; [done|]; split; [done|].

(** The calls of one iteration: the wait for an event, notifications,
    and at its end the acknowledgement and the release of the event. *)
Lemma passiveIteration_shape (vm : VM) a :
  exists notes tail,
    (passiveIteration vm a tt).1 = GetEvent 250 :: notes ++ tail
    /\ Forall (fun c => is_notification c = true) notes
    /\ (notes <> [] ->
        exists ev state,
          pas_GetEvent a = Ok (Some ev)
          /\ ev_GetType ev = Ok EventType_OnGuestPropertyChanged
          /\ pas_GetState a = Ok state
          /\ ev_NewGuestPropertyChangedEvent ev = None)
    /\ ((tail = [EventProcessed; Event_Release]
         /\ (passiveIteration vm a tt).2 = Next tt
         /\ exists ev, pas_GetEvent a = Ok (Some ev))
        \/ (tail = [EventProcessed]
            /\ exists e, (passiveIteration vm a tt).2 = Return (Some e))
        \/ (tail = []
            /\ ((exists err, (passiveIteration vm a tt).2 = Return err)
                \/ pas_GetEvent a = Ok None))).
Proof.
  unfold passiveIteration.
  destruct (pas_GetEvent a) as [[ev|]|e] eqn:Hev; simpl.
  2: { no_notes (@nil (@Call Handler)).
       right. right. split; [done|]. by right. }
  2: { no_notes (@nil (@Call Handler)).
       right. right. split; [done|]. left. by eexists. }
  destruct (ev_GetType ev) as [ty|e] eqn:Hty; simpl.
  2: { no_notes (@nil (@Call Handler)).
       right. right. split; [done|]. left. by eexists. }
  destruct (pas_GetState a) as [st|e] eqn:Hst; simpl.
  2: { no_notes (@nil (@Call Handler)).
       right. right. split; [done|]. left. by eexists. }
  assert (Hd : (dispatch vm ev ty = ([], Next tt))
               \/ (ty = EventType_OnGuestPropertyChanged
                   /\ exists e, ev_NewGuestPropertyChangedEvent ev = Some e
                               /\ dispatch vm ev ty = ([], Return (Some e)))
               \/ (ty = EventType_OnGuestPropertyChanged
                   /\ ev_NewGuestPropertyChangedEvent ev = None
                   /\ dispatch vm ev ty
                      = (dispatchGuestProperty vm (ev_decoding ev), Next tt))).
  { destruct ty; simpl; auto.
    destruct (ev_NewGuestPropertyChangedEvent ev) as [e|]; simpl.
    - right. left. split; [done|]. by exists e.
    - by right; right. }
  destruct Hd as [->|[(-> & e & Hnew & ->)|(-> & Hnew & ->)]]; simpl.
  - destruct (bool_decide (ty = EventType_OnStateChanged)
              && bool_decide (st = MachineState_PoweredOff)); simpl.
    + no_notes (@nil (@Call Handler)).
      right. right. split; [done|]. left. by eexists.
    + destruct (pas_EventProcessed a) as [e|]; simpl.
      * no_notes [@EventProcessed Handler].
        right. left. split; [done|]. by exists e.
      * no_notes [@EventProcessed Handler; Event_Release].
        left. split; [done|]. split; [done|]. by exists ev.
  - no_notes (@nil (@Call Handler)).
    right. right. split; [done|]. left. by eexists.
  - destruct (pas_EventProcessed a) as [e|]; simpl.
    + exists (dispatchGuestProperty vm (ev_decoding ev)), [EventProcessed].
      split; [done|]. split; [apply dispatchGuestProperty_notifications|].
      split; [intros _; by exists ev, st|].
      right. left. split; [done|]. by exists e.
    + exists (dispatchGuestProperty vm (ev_decoding ev)),
             [EventProcessed; Event_Release].
      split; [done|]. split; [apply dispatchGuestProperty_notifications|].
      split; [intros _; by exists ev, st|].
      left. split; [done|]. split; [done|]. by exists ev.
Qed.

(** X7: in the event-subscription loop an observer is called only in an
    iteration that was delivered a guest-property event, whose state
    query succeeded and whose event could be read as a guest-property
    event: a failed state query suppresses the notification of the
    iteration. *)
Theorem event_loop_notifies_only_after_state_query (vm : VM) a c :
  c ∈ (passiveIteration vm a tt).1 ->
  is_notification c = true ->
  exists ev state,
    pas_GetEvent a = Ok (Some ev)
    /\ ev_GetType ev = Ok EventType_OnGuestPropertyChanged
    /\ pas_GetState a = Ok state
    /\ ev_NewGuestPropertyChangedEvent ev = None.
Proof.
  destruct (passiveIteration_shape vm a)
    as (notes & tl & -> & _ & Hnotes & Htl).
  intros Hc Hn.
  apply elem_of_cons in Hc as [->|Hc]; [done|].
  apply elem_of_app in Hc as [Hc|Hc].
  - apply Hnotes. intros ->. by apply elem_of_nil in Hc.
  - exfalso.
    destruct Htl as [(-> & _)|[(-> & _)|(-> & _)]];
      repeat (apply elem_of_cons in Hc as [->|Hc]; [done|]);
      by apply elem_of_nil in Hc.
Qed.

(** X8: an iteration of the event-subscription loop releases its event
    exactly when an event was delivered and the loop goes on: on every
    return, the [nil] one on power-off and the ones with an error, the
    event is left unreleased. *)
Theorem event_is_released_iff_the_loop_goes_on (vm : VM) a :
  Event_Release ∈ (passiveIteration vm a tt).1 <->
  (exists ev, pas_GetEvent a = Ok (Some ev))
  /\ (passiveIteration vm a tt).2 = Next tt.
Proof.
  destruct (passiveIteration_shape vm a)
    as (notes & tl & -> & Hnotif & _ & Htl).
  split.
  - intros Hc. apply elem_of_cons in Hc as [?|Hc]; [done|].
    apply elem_of_app in Hc as [Hc|Hc].
    + rewrite Forall_forall in Hnotif. by specialize (Hnotif _ Hc).
    + destruct Htl as [(-> & Hflow & Hev)|[(-> & _)|(-> & _)]].
      * done.
      * apply elem_of_cons in Hc as [?|Hc]; [done|].
        by apply elem_of_nil in Hc.
      * by apply elem_of_nil in Hc.
  - intros [[ev Hev] Hflow].
    destruct Htl as [(-> & _)|[(-> & e & He)|(-> & [[err He]|Hnil])]].
    + right. apply elem_of_app. right. right. left.
    + congruence.
    + congruence.
    + congruence.
Qed.

Lemma passiveIteration_no_release (vm : VM) a :
  Forall (fun c => is_release c = false) (passiveIteration vm a tt).1.
Proof.
  destruct (passiveIteration_shape vm a)
    as (notes & tl & -> & Hnotif & _ & Htl).
  apply Forall_cons. split; [done|]. apply Forall_app. split.
  - eapply Forall_impl; [exact Hnotif|]. intros c Hc. by destruct c.
  - destruct Htl as [(-> & _)|[(-> & _)|(-> & _)]];
      repeat (apply Forall_cons; split; [done|]); apply Forall_nil_2.
Qed.

Lemma passive_loop_no_release (vm : VM) answers n :
  Forall (fun c => is_release c = false)
         (loop (passiveIteration vm) answers n tt).1.
Proof.
  induction n as [|n IH]; [apply Forall_nil_2|].
  rewrite loop_S.
  destruct (loop (passiveIteration vm) answers n tt) as [log [[]|err]];
    simpl in *; [|done].
  assert (Hit := passiveIteration_no_release vm (answers n)).
  destruct (passiveIteration vm (answers n) tt) as [log' flow]. simpl in *.
  apply Forall_app. by split.
Qed.

(** X9: [passiveListenerLoop] makes none of its deferred calls while it
    is in its loop, and when it returns it ends with exactly the
    releases of what its set-up acquired, last acquired first, whatever
    made it return. *)
Theorem passive_loop_releases_what_it_acquired (vm : VM) script n :
  exists body,
    Forall (fun c => is_release c = false) body
    /\ (status (passiveListenerLoop vm script n) = None ->
        (passiveListenerLoop vm script n).1 = body)
    /\ (status (passiveListenerLoop vm script n) <> None ->
        (passiveListenerLoop vm script n).1
        = body ++ deferred_releases script).
Proof.
  unfold deferred_releases, passiveListenerLoop.
  destruct (pas_GetEventSource script) as [e|]; simpl.
  { exists []. split; [done|]. by split. }
  destruct (pas_CreateListener script) as [e|]; simpl.
  { exists []. split; [done|]. by split. }
  destruct (pas_RegisterListener script) as [e|]; simpl.
  { exists [RegisterListener interestingEvents false].
    split; [by apply Forall_singleton|]. by split. }
  assert (Hbody := passive_loop_no_release vm (passive_iteration script) n).
  destruct (loop (passiveIteration vm) (passive_iteration script) n tt)
    as [log [[]|err]]; simpl in *.
  - exists (RegisterListener interestingEvents false :: log).
    split; [by apply Forall_cons|]. by split.
  - exists (RegisterListener interestingEvents false :: log).
    split; [by apply Forall_cons|]. split; [done|].
    intros _. by rewrite <- !app_assoc.
Qed.

End MonitorRuns.

(** * Provisioning: the size of the machine

    [Create] reads the numbers of CPUs and of megabytes from the
    configuration and falls back on the host when they are not set.
    Go's [int] has 32 or 64 bits: [bits] is that width, and the
    arithmetic of [int] wraps around. *)

(** An [int] of width [bits], as a number between [-2^(bits-1)] and
    [2^(bits-1) - 1]. *)
Definition int_wrap (bits z : Z) : Z :=
  (z + 2 ^ (bits - 1)) mod 2 ^ bits - 2 ^ (bits - 1).

(** The conversion [uint(x)] of an [int]. *)
Definition uint_of_int (bits z : Z) : Z := z mod 2 ^ bits.

(** The conversion [int(x)] of a [uint64]. *)
Definition int_of_uint64 (bits u : Z) : Z := int_wrap bits u.

(** [cpus := cfg.GetInt("cpus"); if cpus <= 0 { if cpus =
    runtime.NumCPU(); cpus > 1 { cpus /= 2 } }] *)
Definition chooseCPUs (configured numCPU : Z) : Z :=
  if configured <=? 0
  then if 1 <? numCPU then Z.quot numCPU 2 else numCPU
  else configured.

(** [ram := cfg.GetInt("ram"); if ram <= 0 { if freeRam, err :=
    backend.GetFreeRam(); err == nil { ram = (int(freeRam) * 2 / 3) /
    1024 / 1024 }; if minRam := cfg.GetInt("min_ram"); ram < minRam {
    ram = minRam } }] *)
Definition chooseRam (bits configured : Z) (freeRam : result Z)
    (minRam : Z) : Z :=
  if configured <=? 0
  then
    let ram :=
      match freeRam with
      | Ok free =>
          Z.quot
            (Z.quot
               (Z.quot (int_wrap bits (int_of_uint64 bits free * 2)) 3)
               1024)
            1024
      | Err _ => configured
      end in
    if ram <? minRam then minRam else ram
  else configured.

(** The share of the free memory the machine gets, in megabytes. *)
Definition two_thirds_in_megabytes (free : Z) : Z :=
  free * 2 / 3 / 1024 / 1024.

Lemma int_wrap_in_range (bits z : Z) :
  0 < bits -> - 2 ^ (bits - 1) <= z < 2 ^ (bits - 1) -> int_wrap bits z = z.
Proof.
  intros Hbits Hz. unfold int_wrap.
  assert (Hpow : 2 ^ bits = 2 * 2 ^ (bits - 1)).
  { rewrite <- Z.pow_succ_r by lia. f_equal. lia. }
  rewrite Z.mod_small by lia. lia.
Qed.

Lemma int_wrap_above (bits z : Z) :
  0 < bits -> 2 ^ (bits - 1) <= z < 2 ^ bits ->
  int_wrap bits z = z - 2 ^ bits.
Proof.
  intros Hbits Hz. unfold int_wrap.
  assert (Hpow : 2 ^ bits = 2 * 2 ^ (bits - 1)).
  { rewrite <- Z.pow_succ_r by lia. f_equal. lia. }
  replace (z + 2 ^ (bits - 1))
    with (z - 2 ^ (bits - 1) + 1 * 2 ^ bits) by lia.
  rewrite Z.mod_add by lia. rewrite Z.mod_small by lia. lia.
Qed.


Lemma quot_nonpos (x b : Z) : x <= 0 -> 0 < b -> Z.quot x b <= 0.
Proof.
  intros Hx Hb. rewrite <- (Z.opp_involutive x), Z.quot_opp_l by lia.
  pose proof (Z.quot_pos (- x) b). lia.
Qed.

Lemma two_thirds_in_megabytes_bound (free : Z) :
  0 <= free ->
  0 <= two_thirds_in_megabytes free
  /\ two_thirds_in_megabytes free * (1024 * 1024) * 3 <= free * 2.
Proof.
  intros Hfree. unfold two_thirds_in_megabytes.
  pose proof (Z.mul_div_le (free * 2) 3).
  pose proof (Z.mul_div_le (free * 2 / 3) 1024).
  pose proof (Z.mul_div_le (free * 2 / 3 / 1024) 1024).
  assert (0 <= free * 2 / 3) by (apply Z.div_pos; lia).
  assert (0 <= free * 2 / 3 / 1024) by (apply Z.div_pos; lia).
  assert (0 <= free * 2 / 3 / 1024 / 1024) by (apply Z.div_pos; lia).
  lia.
Qed.



(** * The supervisor: launch and the command

    [Start] and the command of package [cmd] call the hypervisor, the
    operating system and the monitor.  Their calls are logged as the
    monitor's are, in a journal over their own kinds of call. *)

#[local] Set Warnings "-clear-no-such-hyp".

(** Take a membership in a list of calls apart, case by case. *)
Ltac members :=
  repeat match goal with
         | H : _ ∈ [] |- _ => by apply elem_of_nil in H
         | H : _ ∈ _ :: _ |- _ => apply elem_of_cons in H; destruct H as [H|H]
         | H : _ ∈ _ ++ _ |- _ => apply elem_of_app in H; destruct H as [H|H]
         end.

Section Journal.

Context {C : Type}.

(** A log of calls of kind [C] and how the piece of code ended. *)
Definition Journal (A : Type) : Type := list C * Flow A.

Definition jpure {A} (a : A) : Journal A := ([], Next a).

Definition jbind {A B} (m : Journal A) (k : A -> Journal B) : Journal B :=
  match m with
  | (log, Next a) => let '(log', r) := k a in (log ++ log', r)
  | (log, Return e) => (log, Return e)
  end.

Definition jcall (c : C) : Journal unit := ([c], Next tt).

(** [return err] *)
Definition jreturn {A} (err : option error) : Journal A := ([], Return err).

(** [v, err := f(); if err != nil { return err }] *)
Definition jattempt {A} (r : result A) : Journal A :=
  match r with
  | Ok a => jpure a
  | Err e => jreturn (Some e)
  end.

(** [if err := f(); err != nil { return err }] *)
Definition jcheck (r : option error) : Journal unit :=
  match r with
  | None => jpure tt
  | Some e => jreturn (Some e)
  end.

End Journal.

Notation "'do*' x ':=' m 'in' k" := (jbind m (fun x => k))
  (at level 10, x pattern, m at level 100, k at level 200).

(** ** Start *)

(** A handle on the console of a running machine. *)
Definition Console := string.

Inductive StartCall : Type :=
| Launch (frontend environment : string)
| Launch_WaitForCompletion (timeout : Z)
| Launch_Progress_Release
| GetConsole.

Record StartAnswers : Type := mkStartAnswers {
  sa_Launch : option error;
  sa_WaitForCompletion : option error;
  sa_GetConsole : result Console
}.

(** [Start]; [Next console] stands for its last two lines, the
    assignment of [console] to [vm.console] and [return nil]. *)
Definition Start (a : StartAnswers) : Journal (C := StartCall) Console :=
  do* _ := jcall (Launch "gui" "") in
  do* _ := jcheck (sa_Launch a) in
  do* _ := jcall (Launch_WaitForCompletion 50000) in
  do* _ := jcheck (sa_WaitForCompletion a) in
  do* _ := jcall Launch_Progress_Release in
  do* _ := jcall GetConsole in
  do* console := jattempt (sa_GetConsole a) in
  jpure console.

(** [Stop] *)
Definition Stop : option error := None.

(** ** The command *)

Inductive Writer : Type :=
| LogFile (path : string)
| Stdout
| Stderr.

(** How the command ends: it returns, or it panics, with the values of
    the panics raised, in the order they were raised. *)
Inductive Ending : Type :=
| Returns
| Panics (values : list string).

Section Command.

Context {Handler : Type}.

(** [path.Join] of the Go library. *)
Variable Join : list string -> string.

Inductive RootCall : Type :=
| OpenFile (path : string)
| CreateFile (path : string)
| CloseFile (path : string)
| SetOutput (writers : list Writer)
| IsAdmin
| Println (message : string)
| Executable
| RunAsRoot (executable : string)
| LogPanic (message : string)
| OfStart (c : StartCall)
| OfRun (c : @Call Handler)
| OfRelease (c : @Call Handler).

Record RootAnswers : Type := mkRootAnswers {
  ra_data_path : string;
  ra_OpenFile : option error;
  ra_CreateFile : option error;
  ra_IsAdmin : bool;
  ra_Executable : result string;
  ra_RunAsRoot : option error;
  ra_keepVM : bool;
  ra_Start : StartAnswers;
  ra_SupportPassiveListener : bool;
  ra_passive : PassiveScript;
  ra_polling : PollScript;
  ra_Release : ReleaseAnswers
}.

(** The log file the command could open, if any: [vlaunch.log] under
    the data path, else [/tmp/vlaunch.log]. *)
Definition openLog (a : RootAnswers) : list RootCall * option string :=
  let first := Join [ra_data_path a; "vlaunch.log"] in
  match ra_OpenFile a with
  | None => ([OpenFile first], Some first)
  | Some _ =>
      match ra_CreateFile a with
      | None => ([OpenFile first; CreateFile "/tmp/vlaunch.log"],
                 Some "/tmp/vlaunch.log")
      | Some _ => ([OpenFile first; CreateFile "/tmp/vlaunch.log"], None)
      end
  end.

Definition logWriters (opened : option string) : list Writer :=
  match opened with
  | Some path => [LogFile path]
  | None => []
  end ++ [Stdout; Stderr].

(** [log.Panic(fmt.Sprintf(format, err.Error()))] *)
Definition panic (prefix : string) (e : error)
  : list RootCall * option Ending :=
  ([LogPanic (prefix +:+ e)], Some (Panics [prefix +:+ e])).

(** The branch of a process that is not privileged. *)
Definition elevate (a : RootAnswers) : list RootCall * option Ending :=
  match ra_Executable a with
  | Err e =>
      let '(log, ending) := panic "Failed to determine executable: " e in
      (Println "Elevating privileges" :: Executable :: log, ending)
  | Ok executable =>
      match ra_RunAsRoot a with
      | Some e =>
          let '(log, ending) := panic "Failed to run as root: " e in
          (Println "Elevating privileges" :: Executable
             :: RunAsRoot executable :: log, ending)
      | None =>
          ([Println "Elevating privileges"; Executable;
            RunAsRoot executable], Some Returns)
      end
  end.

(** [Start], [Run] and [Stop] on the machine [NewVM] returns; [None]
    while [Run] has not returned after [n] iterations of its loop. *)
Definition superviseBody (a : RootAnswers) (n : nat)
  : list RootCall * option Ending :=
  match Start (ra_Start a) with
  | (slog, Return (Some e)) =>
      let '(log, ending) := panic "Failed to start vm: " e in
      (map OfStart slog ++ log, ending)
  | (slog, _) =>
      match Run NewVM (ra_SupportPassiveListener a) (ra_passive a)
                (ra_polling a) n with
      | (rlog, None) => (map OfStart slog ++ map OfRun rlog, None)
      | (rlog, Some (Some e)) =>
          let '(log, ending) := panic "Error during vm execution: " e in
          (map OfStart slog ++ map OfRun rlog ++ log, ending)
      | (rlog, Some None) =>
          match Stop with
          | Some e =>
              let '(log, ending) := panic "Failed to stop vm: " e in
              (map OfStart slog ++ map OfRun rlog ++ log, ending)
          | None => (map OfStart slog ++ map OfRun rlog, Some Returns)
          end
      end
  end.

(** A panic raised while the function is ending. *)
Definition raise (value : string) (ending : Ending) : Ending :=
  match ending with
  | Returns => Panics [value]
  | Panics values => Panics (values ++ [value])
  end.

(** The deferred closure: [if !keepVM { if err := vm.Release(); err !=
    nil { log.Panic(...) } }]. *)
Definition releaseUnlessKept (a : RootAnswers) (ending : Ending)
  : list RootCall * Ending :=
  if ra_keepVM a
  then ([], ending)
  else
    match Release (ra_Release a) with
    | (rlog, Return (Some e)) =>
        (map OfRelease rlog ++ [LogPanic ("Failed to release vm: " +:+ e)],
         raise ("Failed to release vm: " +:+ e) ending)
    | (rlog, _) => (map OfRelease rlog, ending)
    end.

(** The branch of a privileged process, with its deferred closure. *)
Definition supervise (a : RootAnswers) (n : nat)
  : list RootCall * option Ending :=
  match superviseBody a n with
  | (log, None) => (log, None)
  | (log, Some ending) =>
      let '(rlog, ending') := releaseUnlessKept a ending in
      (log ++ rlog, Some ending')
  end.

(** The function [Run] of [RootCmd], with [Run] of the machine bounded
    by [n] iterations. *)
Definition RootCmd_Run (a : RootAnswers) (n : nat)
  : list RootCall * option Ending :=
  let '(flog, opened) := openLog a in
  let '(blog, ending) :=
    if ra_IsAdmin a then supervise a n else elevate a in
  let log := flog ++ SetOutput (logWriters opened) :: IsAdmin :: blog in
  match ending with
  | None => (log, None)
  | Some ending =>
      (log ++ match opened with
              | Some path => [CloseFile path]
              | None => []
              end,
       Some ending)
  end.

(** The calls of [Run] of the machine and of [Release] among the calls
    of the command. *)
Definition run_calls (log : list RootCall) : list (@Call Handler) :=
  omap (fun c => match c with OfRun c' => Some c' | _ => None end) log.

Definition release_calls (log : list RootCall) : list (@Call Handler) :=
  omap (fun c => match c with OfRelease c' => Some c' | _ => None end) log.

Definition start_calls (log : list RootCall) : list StartCall :=
  omap (fun c => match c with OfStart c' => Some c' | _ => None end) log.

(** ** What Start and the command do *)

(** X13: [Start] releases the progress of the launch only after the
    launch and the 50-second wait for it have both succeeded, asks for
    the console only after that release, and hands the console over
    exactly when all three calls succeed; when the wait fails it
    returns the error with the progress left unreleased.  Its calls
    are, whatever is answered, the first calls of the sequence launch,
    wait, release of the progress, query of the console, in this order:
    the release stands right after the wait and right before the
    query; each outcome has the log given here. *)
Theorem Start_releases_progress_only_after_completion (a : StartAnswers) :
  (Launch_Progress_Release ∈ (Start a).1 <->
   sa_Launch a = None /\ sa_WaitForCompletion a = None)
  /\ (GetConsole ∈ (Start a).1 <-> Launch_Progress_Release ∈ (Start a).1)
  /\ (forall console,
        (Start a).2 = Next console <->
        sa_Launch a = None /\ sa_WaitForCompletion a = None
        /\ sa_GetConsole a = Ok console)
  /\ (forall e,
        sa_Launch a = None -> sa_WaitForCompletion a = Some e ->
        Start a = ([Launch "gui" ""; Launch_WaitForCompletion 50000],
                   Return (Some e)))
  /\ (forall e,
        sa_Launch a = Some e ->
        Start a = ([Launch "gui" ""], Return (Some e)))
  /\ (forall e,
        sa_Launch a = None -> sa_WaitForCompletion a = None ->
        sa_GetConsole a = Err e ->
        Start a = ([ Launch "gui" ""; Launch_WaitForCompletion 50000;
                     Launch_Progress_Release; GetConsole ],
                   Return (Some e)))
  /\ (forall console,
        sa_Launch a = None -> sa_WaitForCompletion a = None ->
        sa_GetConsole a = Ok console ->
        Start a = ([ Launch "gui" ""; Launch_WaitForCompletion 50000;
                     Launch_Progress_Release; GetConsole ],
                   Next console))
  /\ (Start a).1 `prefix_of` [ Launch "gui" ""; Launch_WaitForCompletion 50000;
                               Launch_Progress_Release; GetConsole ]
  /\ (forall i : nat,
        (Start a).1 !! i = Some Launch_Progress_Release ->
        (exists j : nat, i = S j /\
           (Start a).1 !! j = Some (Launch_WaitForCompletion 50000))
        /\ (Start a).1 !! S i = Some GetConsole)
  /\ (forall j : nat,
        (Start a).1 !! j = Some GetConsole ->
        exists i : nat, j = S i /\
          (Start a).1 !! i = Some Launch_Progress_Release).
Proof.
  unfold Start.
  destruct (sa_Launch a) as [e1|]; simpl;
    [|destruct (sa_WaitForCompletion a) as [e2|]; simpl;
      [|destruct (sa_GetConsole a) as [console|e3]; simpl]];
    (split; [|split; [|split; [|split; [|split; [|split; [|split;
       [|split; [|split]]]]]]]]);
    try (intros; members; rewrite ?elem_of_cons, ?elem_of_nil;
         by naive_solver);
    try (by eexists [_; _; _]);
    try (by eexists [_; _]);
    try (by exists []);
    try (intros [|[|[|[|i]]]] Hi; simpl in Hi; try discriminate;
         by eauto).
Qed.

(** The values of the panic the deferred closure raises. *)
Definition release_failure (a : RootAnswers) : list string :=
  if ra_keepVM a
  then []
  else match (Release (Handler := Handler) (ra_Release a)).2 with
       | Return (Some e) => ["Failed to release vm: " +:+ e]
       | _ => []
       end.

Lemma omap_map_none {A B D} (f : B -> option D) (g : A -> B) (l : list A) :
  (forall x, f (g x) = None) -> omap f (map g l) = [].
Proof.
  intros Hnone. induction l as [|x l IH]; [done|].
  simpl. by rewrite Hnone.
Qed.

Lemma omap_map_some {A B} (f : B -> option A) (g : A -> B) (l : list A) :
  (forall x, f (g x) = Some x) -> omap f (map g l) = l.
Proof.
  intros Hsome. induction l as [|x l IH]; [done|].
  simpl. rewrite Hsome. simpl. f_equal. apply IH.
Qed.

Lemma run_calls_app l1 l2 : run_calls (l1 ++ l2) = run_calls l1 ++ run_calls l2.
Proof. apply omap_app. Qed.

Lemma release_calls_app l1 l2 :
  release_calls (l1 ++ l2) = release_calls l1 ++ release_calls l2.
Proof. apply omap_app. Qed.

Lemma run_calls_OfRun l : run_calls (map OfRun l) = l.
Proof. by apply omap_map_some. Qed.

Lemma run_calls_OfStart l : run_calls (map OfStart l) = [].
Proof. by apply omap_map_none. Qed.

Lemma run_calls_OfRelease l : run_calls (map OfRelease l) = [].
Proof. by apply omap_map_none. Qed.

Lemma release_calls_OfRelease l : release_calls (map OfRelease l) = l.
Proof. by apply omap_map_some. Qed.

Lemma release_calls_OfStart l : release_calls (map OfStart l) = [].
Proof. by apply omap_map_none. Qed.

Lemma release_calls_OfRun l : release_calls (map OfRun l) = [].
Proof. by apply omap_map_none. Qed.

(** Take the command apart along the answers that decide its path, and
    read the calls of the machine off its log. *)
Ltac command_paths a n :=
  unfold RootCmd_Run, openLog, supervise, superviseBody, elevate,
    releaseUnlessKept, release_failure, panic, Stop;
  destruct (ra_OpenFile a); [destruct (ra_CreateFile a)|];
  (destruct (ra_IsAdmin a);
   [destruct (Start (ra_Start a)) as [? [?|[?|]]];
    destruct (Run (Handler := Handler) NewVM (ra_SupportPassiveListener a)
                  (ra_passive a) (ra_polling a) n) as [? [[?|]|]];
    destruct (ra_keepVM a);
    destruct (Release (Handler := Handler) (ra_Release a))
      as [? [[]|[?|]]]
   |destruct (ra_Executable a); [destruct (ra_RunAsRoot a)|]]);
  simpl;
  rewrite ?run_calls_app, ?release_calls_app; simpl;
  rewrite ?run_calls_app, ?release_calls_app; simpl;
  rewrite ?run_calls_OfRun, ?run_calls_OfStart, ?run_calls_OfRelease,
    ?release_calls_OfRelease, ?release_calls_OfStart, ?release_calls_OfRun;
  simpl; rewrite ?app_nil_r; try done.

(** X14: once the command has ended, by returning or by a panic, its
    log holds the calls of exactly one [Release] when the process is
    privileged and [--keep] is not set, and no call of [Release]
    otherwise; while the monitor runs no call of [Release] has been
    made. *)
Theorem command_releases_unless_kept (a : RootAnswers) (n : nat) :
  release_calls (RootCmd_Run a n).1 =
  match (RootCmd_Run a n).2 with
  | None => []
  | Some _ =>
      if ra_IsAdmin a && negb (ra_keepVM a)
      then (Release (ra_Release a)).1
      else []
  end.
Proof. command_paths a n. Qed.

(** *** A monitor without observers *)

Lemma diffProperties_no_observers (vm : @VirtualMachine Handler) r1 r0
    (S0 S1 : gmap string GuestProperty) :
  eventHandlers vm = [] -> diffProperties vm r1 r0 S0 S1 = [].
Proof.
  intros Hnone. unfold diffProperties, notifyChanged, notifyDeleted, notifyAll.
  rewrite Hnone. rewrite !flat_map_all_nil; [done| |].
  - intros [k p] _. by destruct (S1 !! k).
  - intros [k p] _. by destruct (changed S0 k p).
Qed.

Lemma loop_no_observer_call {St In}
    (body : In -> St -> @Exec Handler St) script n s :
  (forall a s', omap notified_handler (body a s').1 = []) ->
  omap notified_handler (loop body script n s).1 = [].
Proof.
  intros Hbody. induction n as [|n IH]; [done|].
  rewrite loop_S. destruct (loop body script n s) as [log [s'|err]];
    simpl in *; [|done].
  specialize (Hbody (script n) s').
  destruct (body (script n) s') as [log' flow]. simpl in *.
  by rewrite omap_app, IH, Hbody.
Qed.

Lemma Run_no_observer_call (vm : @VirtualMachine Handler) mode passive
    polling n :
  eventHandlers vm = [] ->
  omap notified_handler (Run vm mode passive polling n).1 = [].
Proof.
  intros Hnone. unfold Run. destruct mode; simpl.
  - unfold passiveListenerLoop.
    destruct (pas_GetEventSource passive); [done|].
    destruct (pas_CreateListener passive); [done|].
    destruct (pas_RegisterListener passive); [done|]. simpl.
    assert (Hloop := loop_no_observer_call (passiveIteration vm)
                       (passive_iteration passive) n tt).
    destruct (loop (passiveIteration vm) (passive_iteration passive) n tt)
      as [log [[]|err]]; simpl in *.
    + apply Hloop. intros a [].
      destruct (passiveIteration_handlers vm a) as [H|H]; congruence.
    + change (omap notified_handler
                (((log ++ [UnregisterListener]) ++ [Listener_Release])
                 ++ [EventSource_Release]) = []).
      rewrite !omap_app, Hloop; [done|]. intros a [].
      destruct (passiveIteration_handlers vm a) as [H|H]; congruence.
  - unfold pollingLoop.
    destruct (initial_GetState polling) as [s0|e0]; [|done].
    destruct (initial_EnumerateGuestProperties polling) as [l0|e0]; [|done].
    simpl.
    match goal with |- context [loop ?b ?s ?k ?v] =>
      assert (Hloop := loop_no_observer_call b s k v);
      destruct (loop b s k v) as [log flow] end.
    simpl in *. apply Hloop. intros a v.
    destruct (pollingIteration_cases vm a v)
      as [[err ->]|(state & l & _ & _ & ->)]; [done|].
    simpl. by rewrite diffProperties_no_observers.
Qed.

Lemma Start_ends (a : StartAnswers) :
  (exists console, (Start a).2 = Next console)
  \/ (exists e, (Start a).2 = Return (Some e)).
Proof.
  unfold Start. destruct (sa_Launch a); [right; by eexists|].
  destruct (sa_WaitForCompletion a); [right; by eexists|].
  destruct (sa_GetConsole a); [left|right]; by eexists.
Qed.

(** X15: when [Start] fails in a privileged process, the command does
    not run the monitor; it panics with the failure of the start, and
    with the failure of the release after it when the deferred
    [Release] fails too. *)
Theorem command_after_failed_start (a : RootAnswers) (n : nat) (e : error) :
  ra_IsAdmin a = true ->
  (Start (ra_Start a)).2 = Return (Some e) ->
  run_calls (RootCmd_Run a n).1 = []
  /\ (RootCmd_Run a n).2
     = Some (Panics (("Failed to start vm: " +:+ e) :: release_failure a)).
Proof.
  intros Hadmin Hstart. revert Hadmin Hstart.
  command_paths a n; intros; simplify_eq; done.
Qed.

(** X16: the command registers no observer on the machine it makes, so
    whatever the monitor reads, in either mode, no observer is called
    while the command runs. *)
Theorem command_calls_no_observer (a : RootAnswers) (n : nat) :
  omap notified_handler (run_calls (RootCmd_Run a n).1) = [].
Proof.
  generalize (Run_no_observer_call NewVM (ra_SupportPassiveListener a)
                (ra_passive a) (ra_polling a) n eq_refl).
  command_paths a n.
Qed.

(** X17: the command returns without a panic exactly when every stage
    succeeded: in a privileged process [Start], the monitor (returning
    [nil]) and, unless [--keep] is set, [Release]; in any other process
    the look-up of the executable and the relaunch as root. *)
Theorem command_returns_iff_every_stage_succeeds (a : RootAnswers) (n : nat) :
  (RootCmd_Run a n).2 = Some Returns <->
  if ra_IsAdmin a
  then (exists console, (Start (ra_Start a)).2 = Next console)
       /\ (Run (Handler := Handler) NewVM (ra_SupportPassiveListener a)
               (ra_passive a) (ra_polling a) n).2 = Some None
       /\ release_failure a = []
  else (exists executable, ra_Executable a = Ok executable)
       /\ ra_RunAsRoot a = None.
Proof.
  generalize (Start_ends (ra_Start a)).
  command_paths a n; intros; naive_solver.
Qed.

End Command.

(** * Provisioning: Create *)

(** The configuration [Create] reads; [cfg_shared_folders] lists the
    entries of [shared_folders] in the order in which Go visits that
    map, each with the values of its sub-section. *)
Record SharedFolder : Type := mkSharedFolder {
  sf_name : string;
  sf_path : string;
  sf_persistent : bool;
  sf_automount : bool
}.

Record Config : Type := mkConfig {
  cfg_data_path : string;
  cfg_disk_type : string;
  cfg_disk_location : string;
  cfg_distro_type : string;
  cfg_cpus : Z;
  cfg_ram : Z;
  cfg_min_ram : Z;
  cfg_host_key : string;
  cfg_menubar : bool;
  cfg_shared_folders : list SharedFolder
}.

(** Handles of the hypervisor. *)
Definition Machine := string.
Definition StorageController := string.
Definition Session := string.

(** The fields [Create] assigns before it returns [nil]. *)
Record Provisioned : Type := mkProvisioned {
  pv_machine : Machine;
  pv_controller : StorageController;
  pv_session : Session;
  pv_dd : Medium
}.

(** The constants of the hypervisor binding [Create] names. *)
Inductive VBoxConstant : Type :=
| DeviceType_HardDisk
| AccessMode_ReadWrite
| BootMenuMode_Disabled
| NetworkAdapterType_I82540EM
| DnDMode_Bidirectional
| ClipboardMode_Bidirectional
| StorageBus_Ide
| StorageControllerType_Ich6
| LockType_Write.

Definition controllerName : string := "IDE".

Inductive CreateCall : Type :=
| Init
| FindDevice
| Log_CreatingRawVMDK (device : string)
| CreateRawVMDK (location device : string) (partitions relative : bool)
| OpenMedium (location : string) (deviceType accessMode : VBoxConstant)
             (forceNewUuid : bool)
| CreateMachine (settingsPath name osType flags : string)
| SetCPUCount (count : Z)
| Log_SettingRAM (ram : Z)
| SetMemorySize (megabytes : Z)
| SetVramSize (megabytes : Z)
| GetBiosSettings
| SetACPIEnabled (enabled : bool)
| SetIOAPICEnabled (enabled : bool)
| SetBootMenuMode (mode : VBoxConstant)
| GetNetworkAdapter (slot : Z)
| SetAdapterType (adapterType : VBoxConstant)
| VBox_SetExtraData (key value : string)
| Machine_SetExtraData (key value : string)
| SetAccelerate3DEnabled (enabled : bool)
| SetDnDMode (mode : VBoxConstant)
| SetClipboardMode (mode : VBoxConstant)
| CreateSharedFolder (name path : string) (persistent automount : bool)
| Log_SharedFolderFailed (name : string) (e : error)
| AddStorageController (name : string) (bus : VBoxConstant)
| SetType (controllerType : VBoxConstant)
| SaveSettings
| Register
| Session_Init
| LockMachine (lockType : VBoxConstant)
| GetMachine
| AttachDevice (name : string) (port device : Z) (deviceType : VBoxConstant)
               (medium : Medium)
| Session_SaveSettings
| Session_UnlockMachine.

Record CreateAnswers : Type := mkCreateAnswers {
  ca_Init : option error;
  ca_FindDevice : result string;
  ca_RelativeRawVMDK : bool;
  ca_CreateRawVMDK : option error;
  ca_OpenMedium : result Medium;
  ca_CreateMachine : result Machine;
  ca_NumCPU : Z;
  ca_GetFreeRam : result Z;
  ca_SetVramSize : option error;
  ca_GetBiosSettings : option error;
  ca_GetNetworkAdapter : option error;
  ca_SetAdapterType : option error;
  ca_CreateSharedFolder : string -> option error;
  ca_AddStorageController : result StorageController;
  ca_SetType : option error;
  ca_SaveSettings : option error;
  ca_Register : option error;
  ca_Session_Init : result Session;
  ca_LockMachine : option error;
  ca_GetMachine : option error;
  ca_AttachDevice : option error;
  ca_Session_SaveSettings : option error;
  ca_UnlockMachine : option error
}.

(** The same answers, with other answers to [CreateSharedFolder]. *)
Definition with_CreateSharedFolder (a : CreateAnswers)
    (answer : string -> option error) : CreateAnswers :=
  {| ca_Init := ca_Init a;
     ca_FindDevice := ca_FindDevice a;
     ca_RelativeRawVMDK := ca_RelativeRawVMDK a;
     ca_CreateRawVMDK := ca_CreateRawVMDK a;
     ca_OpenMedium := ca_OpenMedium a;
     ca_CreateMachine := ca_CreateMachine a;
     ca_NumCPU := ca_NumCPU a;
     ca_GetFreeRam := ca_GetFreeRam a;
     ca_SetVramSize := ca_SetVramSize a;
     ca_GetBiosSettings := ca_GetBiosSettings a;
     ca_GetNetworkAdapter := ca_GetNetworkAdapter a;
     ca_SetAdapterType := ca_SetAdapterType a;
     ca_CreateSharedFolder := answer;
     ca_AddStorageController := ca_AddStorageController a;
     ca_SetType := ca_SetType a;
     ca_SaveSettings := ca_SaveSettings a;
     ca_Register := ca_Register a;
     ca_Session_Init := ca_Session_Init a;
     ca_LockMachine := ca_LockMachine a;
     ca_GetMachine := ca_GetMachine a;
     ca_AttachDevice := ca_AttachDevice a;
     ca_Session_SaveSettings := ca_Session_SaveSettings a;
     ca_UnlockMachine := ca_UnlockMachine a |}.

Section Provisioning.

(** [path.Join] of the Go library and the width of [int]. *)
Variable Join : list string -> string.
Variable bits : Z.

(** The [switch diskType]: the location of the disk to open. *)
Definition chooseDisk (cfg : Config) (a : CreateAnswers)
    (settingsPath : string) : Journal (C := CreateCall) string :=
  if String.eqb (cfg_disk_type cfg) "raw" then
    do* _ := jcall FindDevice in
    do* device := jattempt (ca_FindDevice a) in
    do* _ := jcall (Log_CreatingRawVMDK device) in
    let diskLocation := Join [settingsPath; "raw.vmdk"] in
    do* _ := jcall (CreateRawVMDK diskLocation device true
                                  (ca_RelativeRawVMDK a)) in
    do* _ := jcheck (ca_CreateRawVMDK a) in
    jpure diskLocation
  else if String.eqb (cfg_disk_type cfg) "vdi" then
    jpure (cfg_disk_location cfg)
  else
    jreturn (Some ("Invalid disk type '" +:+ cfg_disk_type cfg +:+ "'")).

(** The settings of the user interface, for the installation and for
    the machine. *)
Definition guiSettings (cfg : Config) : list CreateCall :=
  [ VBox_SetExtraData "GUI/MaxGuestResolution" "any";
    VBox_SetExtraData "GUI/MaxGuestResolution" "any";
    VBox_SetExtraData "GUI/Input/AutoCapture" "true";
    VBox_SetExtraData "GUI/TrayIcon/Enabled" "false";
    VBox_SetExtraData "GUI/UpdateCheckCount" "2";
    VBox_SetExtraData "GUI/UpdateDate" "never";
    VBox_SetExtraData "GUI/RegistrationData" "triesLeft=0";
    VBox_SetExtraData "GUI/SUNOnlineData" "0";
    VBox_SetExtraData "GUI/SuppressMessages"
      (",remindAboutAutoCapture,confirmInputCapture,"
       +:+ "remindAboutMouseIntegrationOn,remindAboutMouseIntegrationOff,"
       +:+ "remindAboutInaccessibleMedia,remindAboutWrongColorDepth,confirmGoingFullscreen,"
       +:+ "showRuntimeError.warning.HostAudioNotResponding,"
       +:+ "showRuntimeError.warning.3DSupportIncompatibleAdditions") ]
  ++ (if cfg_menubar cfg
      then []
      else [ VBox_SetExtraData "GUI/Customizations" "noMenuBar";
             VBox_SetExtraData "GUI/ShowMiniToolBar" "no" ])
  ++ [ Machine_SetExtraData "GUI/SaveMountedAtRuntime" "false";
       Machine_SetExtraData "GUI/Seamless" "off";
       Machine_SetExtraData "GUI/LastCloseAction" "shutdown";
       Machine_SetExtraData "GUI/AutoresizeGuest" "on" ]
  ++ (if String.eqb (cfg_host_key cfg) ""
      then []
      else [ Machine_SetExtraData "GUI/Input/HostKey" (cfg_host_key cfg) ])
  ++ [ SetAccelerate3DEnabled true;
       SetDnDMode DnDMode_Bidirectional;
       SetClipboardMode ClipboardMode_Bidirectional ].

(** The [range] over the shared folders: a failure is logged and the
    loop goes on. *)
Definition createSharedFolders (a : CreateAnswers)
    (folders : list SharedFolder) : list CreateCall :=
  flat_map
    (fun folder =>
       CreateSharedFolder (sf_name folder) (sf_path folder)
                          (sf_persistent folder) (sf_automount folder)
       :: match ca_CreateSharedFolder a (sf_name folder) with
          | Some e => [Log_SharedFolderFailed (sf_name folder) e]
          | None => []
          end)
    folders.

(** [Create]; [Next p] stands for its last lines, the assignment of the
    four handles to the fields of [vm] and [return nil]. *)
Definition Create (cfg : Config) (a : CreateAnswers)
  : Journal (C := CreateCall) Provisioned :=
  let settingsPath := Join [cfg_data_path cfg] in
  do* _ := jcall Init in
  do* _ := match ca_Init a with
           | Some e =>
               jreturn (Some ("Failed to initialize VirtualBox API: " +:+ e))
           | None => jpure tt
           end in
  do* diskLocation := chooseDisk cfg a settingsPath in
  do* _ := jcall (OpenMedium diskLocation DeviceType_HardDisk
                             AccessMode_ReadWrite false) in
  do* dd := jattempt (ca_OpenMedium a) in
  do* _ := jcall (CreateMachine settingsPath "ufo" (cfg_distro_type cfg) "") in
  do* machine := jattempt (ca_CreateMachine a) in
  let cpus := chooseCPUs (cfg_cpus cfg) (ca_NumCPU a) in
  do* _ := jcall (SetCPUCount (uint_of_int bits cpus)) in
  let ram := chooseRam bits (cfg_ram cfg) (ca_GetFreeRam a)
                       (cfg_min_ram cfg) in
  do* _ := jcall (Log_SettingRAM ram) in
  do* _ := jcall (SetMemorySize (uint_of_int bits ram)) in
  do* _ := jcall (SetVramSize 32) in
  do* _ := jcheck (ca_SetVramSize a) in
  do* _ := jcall GetBiosSettings in
  do* _ := jcheck (ca_GetBiosSettings a) in
  do* _ := jcall (SetACPIEnabled true) in
  do* _ := jcall (SetIOAPICEnabled true) in
  do* _ := jcall (SetBootMenuMode BootMenuMode_Disabled) in
  do* _ := jcall (GetNetworkAdapter 0) in
  do* _ := jcheck (ca_GetNetworkAdapter a) in
  do* _ := jcall (SetAdapterType NetworkAdapterType_I82540EM) in
  do* _ := jcheck (ca_SetAdapterType a) in
  do* _ := (guiSettings cfg, Next tt) in
  do* _ := (createSharedFolders a (cfg_shared_folders cfg), Next tt) in
  do* _ := jcall (AddStorageController controllerName StorageBus_Ide) in
  do* controller := jattempt (ca_AddStorageController a) in
  do* _ := jcall (SetType StorageControllerType_Ich6) in
  do* _ := jcheck (ca_SetType a) in
  do* _ := jcall SaveSettings in
  do* _ := jcheck (ca_SaveSettings a) in
  do* _ := jcall Register in
  do* _ := jcheck (ca_Register a) in
  do* _ := jcall Session_Init in
  do* session := jattempt (ca_Session_Init a) in
  do* _ := jcall (LockMachine LockType_Write) in
  do* _ := jcheck (ca_LockMachine a) in
  do* _ := jcall GetMachine in
  do* _ := jcheck (ca_GetMachine a) in
  do* _ := jcall (AttachDevice controllerName 0 0 DeviceType_HardDisk dd) in
  do* _ := jcheck (ca_AttachDevice a) in
  do* _ := jcall Session_SaveSettings in
  do* _ := jcheck (ca_Session_SaveSettings a) in
  do* _ := jcall Session_UnlockMachine in
  do* _ := jcheck (ca_UnlockMachine a) in
  jpure {| pv_machine := machine; pv_controller := controller;
           pv_session := session; pv_dd := dd |}.

End Provisioning.

(** ** What Create does *)

Arguments guiSettings : simpl never.
Arguments createSharedFolders : simpl never.
Arguments chooseCPUs : simpl never.
Arguments chooseRam : simpl never.
Arguments uint_of_int : simpl never.

(** The calls that set up the user interface. *)
Definition is_setting (c : CreateCall) : bool :=
  match c with
  | VBox_SetExtraData _ _ | Machine_SetExtraData _ _
  | SetAccelerate3DEnabled _ | SetDnDMode _ | SetClipboardMode _ => true
  | _ => false
  end.

(** The calls of the range over the shared folders. *)
Definition is_folder_call (c : CreateCall) : bool :=
  match c with
  | CreateSharedFolder _ _ _ _ | Log_SharedFolderFailed _ _ => true
  | _ => false
  end.

(** The name of the shared folder a call tries to create. *)
Definition folder_attempt (c : CreateCall) : option string :=
  match c with
  | CreateSharedFolder name _ _ _ => Some name
  | _ => None
  end.

Lemma guiSettings_kinds (cfg : Config) c :
  c ∈ guiSettings cfg -> is_setting c = true.
Proof.
  unfold guiSettings. intros Hc.
  destruct (cfg_menubar cfg), (String.eqb (cfg_host_key cfg) "");
    simpl in Hc; members; by subst.
Qed.

Lemma createSharedFolders_kinds (a : CreateAnswers) folders c :
  c ∈ createSharedFolders a folders -> is_folder_call c = true.
Proof.
  unfold createSharedFolders. intros Hc.
  apply list_elem_of_In, in_flat_map in Hc as (folder & _ & Hc).
  apply list_elem_of_In in Hc.
  destruct (ca_CreateSharedFolder a (sf_name folder)); members; by subst.
Qed.

Lemma guiSettings_host_key (cfg : Config) v :
  Machine_SetExtraData "GUI/Input/HostKey" v ∈ guiSettings cfg ->
  v = cfg_host_key cfg /\ v <> "".
Proof.
  unfold guiSettings. intros Hc.
  destruct (cfg_menubar cfg),
    (String.eqb (cfg_host_key cfg) "") eqn:Hkey;
    simpl in Hc; members; simplify_eq;
    (split; [done|]); by apply String.eqb_neq.
Qed.

Lemma guiSettings_menubar (cfg : Config) v :
  VBox_SetExtraData "GUI/Customizations" v ∈ guiSettings cfg ->
  v = "noMenuBar" /\ cfg_menubar cfg = false.
Proof.
  unfold guiSettings. intros Hc.
  destruct (cfg_menubar cfg), (String.eqb (cfg_host_key cfg) "");
    simpl in Hc; members; by simplify_eq.
Qed.

Lemma folder_attempts_guiSettings (cfg : Config) :
  omap folder_attempt (guiSettings cfg) = [].
Proof.
  unfold guiSettings.
  by destruct (cfg_menubar cfg), (String.eqb (cfg_host_key cfg) "").
Qed.

Lemma folder_attempts_createSharedFolders (a : CreateAnswers) folders :
  omap folder_attempt (createSharedFolders a folders) = map sf_name folders.
Proof.
  unfold createSharedFolders. induction folders as [|folder l IH]; [done|].
  simpl. f_equal. rewrite omap_app, IH.
  by destruct (ca_CreateSharedFolder a (sf_name folder)).
Qed.

Lemma createSharedFolders_failed (a : CreateAnswers) folders name e :
  Log_SharedFolderFailed name e ∈ createSharedFolders a folders ->
  ca_CreateSharedFolder a name = Some e /\ name ∈ map sf_name folders.
Proof.
  unfold createSharedFolders. intros Hc.
  apply list_elem_of_In, in_flat_map in Hc as (folder & Hfolder & Hc).
  apply list_elem_of_In in Hc, Hfolder.
  destruct (ca_CreateSharedFolder a (sf_name folder)) eqn:Hanswer;
    members; simplify_eq.
  split; [done|]. apply list_elem_of_fmap. by exists folder.
Qed.

#[global] Opaque guiSettings createSharedFolders.

(** Follow [Create] along its calls, in order: at every call that can
    fail, [fin] settles the path on which it fails. *)
Ltac walk_Create a fin :=
  unfold Create, chooseDisk;
  (destruct (ca_Init a) eqn:?; simpl; [solve [fin]|]);
  (destruct (String.eqb _ "raw") eqn:?; simpl;
   [(destruct (ca_FindDevice a) eqn:?; simpl; [|solve [fin]]);
    (destruct (ca_CreateRawVMDK a) eqn:?; simpl; [solve [fin]|])
   |(destruct (String.eqb _ "vdi") eqn:?; simpl; [|solve [fin]])]);
  (destruct (ca_OpenMedium a) eqn:?; simpl; [|solve [fin]]);
  (destruct (ca_CreateMachine a) eqn:?; simpl; [|solve [fin]]);
  (destruct (ca_SetVramSize a) eqn:?; simpl; [solve [fin]|]);
  (destruct (ca_GetBiosSettings a) eqn:?; simpl; [solve [fin]|]);
  (destruct (ca_GetNetworkAdapter a) eqn:?; simpl; [solve [fin]|]);
  (destruct (ca_SetAdapterType a) eqn:?; simpl; [solve [fin]|]);
  (destruct (ca_AddStorageController a) eqn:?; simpl; [|solve [fin]]);
  (destruct (ca_SetType a) eqn:?; simpl; [solve [fin]|]);
  (destruct (ca_SaveSettings a) eqn:?; simpl; [solve [fin]|]);
  (destruct (ca_Register a) eqn:?; simpl; [solve [fin]|]);
  (destruct (ca_Session_Init a) eqn:?; simpl; [|solve [fin]]);
  (destruct (ca_LockMachine a) eqn:?; simpl; [solve [fin]|]);
  (destruct (ca_GetMachine a) eqn:?; simpl; [solve [fin]|]);
  (destruct (ca_AttachDevice a) eqn:?; simpl; [solve [fin]|]);
  (destruct (ca_Session_SaveSettings a) eqn:?; simpl; [solve [fin]|]);
  (destruct (ca_UnlockMachine a) eqn:?; simpl; [solve [fin]|]);
  fin.

(** Settle a membership of a call in the log of a path. *)
Ltac not_there :=
  members;
  repeat match goal with
         | H : _ ∈ guiSettings _ |- _ => apply guiSettings_kinds in H
         | H : _ ∈ createSharedFolders _ _ |- _ =>
             apply createSharedFolders_kinds in H
         end;
  simpl in *; try done; try congruence.

(** X18: when [Create] returns an error after it has called
    [UnlockMachine] on the session, that error is the one of the
    unlock itself: a failure of [GetMachine], [AttachDevice] or
    [SaveSettings] under the write lock leaves the session locked.  A
    [Create] that succeeds ends with the lock, the attachment of the
    disk it opened, the saving and the unlock. *)
Theorem Create_unlocks_only_at_its_end Join bits (cfg : Config)
    (a : CreateAnswers) :
  (forall e,
      (Create Join bits cfg a).2 = Return (Some e) ->
      Session_UnlockMachine ∈ (Create Join bits cfg a).1 ->
      ca_UnlockMachine a = Some e)
  /\ (forall p,
        (Create Join bits cfg a).2 = Next p ->
        [ LockMachine LockType_Write; GetMachine;
          AttachDevice controllerName 0 0 DeviceType_HardDisk (pv_dd p);
          Session_SaveSettings; Session_UnlockMachine ]
        `suffix_of` (Create Join bits cfg a).1
        /\ ca_OpenMedium a = Ok (pv_dd p)).
Proof.
  split.
  - intros e.
    walk_Create a ltac:(intros Hflow Hin; simplify_eq; not_there).
  - intros p.
    walk_Create a ltac:(
      intros Hflow;
      first [ discriminate
            | simplify_eq; simpl; split; [|done];
              repeat first [ by apply reflexivity
                           | apply suffix_cons_r | apply suffix_app_r ] ]).
Qed.

(** A membership in one of the two stretches of the log that the
    configuration decides is absurd for a call of another kind. *)
Ltac absurd_stretch :=
  match goal with
  | H : _ ∈ guiSettings _ |- _ => apply guiSettings_kinds in H; done
  | H : _ ∈ createSharedFolders _ _ |- _ =>
      apply createSharedFolders_kinds in H; done
  end.

(** X19: [Create] wraps a failure of the initialisation in a message of
    its own and rejects a disk type other than [raw] and [vdi] before
    any other call; the medium it opens, as a hard disk for reading and
    writing, is the configured location for [vdi], without any look-up
    of a device, and for [raw] the file [raw.vmdk] under the settings
    path, which it has just created, with its partitions, for the
    device found. *)
Theorem Create_opens_the_configured_disk Join bits (cfg : Config)
    (a : CreateAnswers) :
  (forall e,
      ca_Init a = Some e ->
      Create Join bits cfg a
      = ([Init],
         Return (Some ("Failed to initialize VirtualBox API: " +:+ e))))
  /\ (ca_Init a = None ->
      cfg_disk_type cfg <> "raw" -> cfg_disk_type cfg <> "vdi" ->
      Create Join bits cfg a
      = ([Init],
         Return (Some ("Invalid disk type '" +:+ cfg_disk_type cfg +:+ "'"))))
  /\ (forall location deviceType accessMode forceNewUuid,
        OpenMedium location deviceType accessMode forceNewUuid
        ∈ (Create Join bits cfg a).1 ->
        deviceType = DeviceType_HardDisk
        /\ accessMode = AccessMode_ReadWrite
        /\ forceNewUuid = false
        /\ ((cfg_disk_type cfg = "vdi"
             /\ location = cfg_disk_location cfg
             /\ FindDevice ∉ (Create Join bits cfg a).1)
            \/ (cfg_disk_type cfg = "raw"
                /\ location = Join [Join [cfg_data_path cfg]; "raw.vmdk"]
                /\ exists device,
                    ca_FindDevice a = Ok device
                    /\ ca_CreateRawVMDK a = None
                    /\ CreateRawVMDK location device true
                                     (ca_RelativeRawVMDK a)
                       ∈ (Create Join bits cfg a).1))).
Proof.
  split; [|split].
  - intros e He. unfold Create. by rewrite He.
  - intros Hinit Hraw Hvdi. unfold Create, chooseDisk. rewrite Hinit. simpl.
    apply String.eqb_neq in Hraw, Hvdi. by rewrite Hraw, Hvdi.
  - intros location deviceType accessMode forceNewUuid.
    walk_Create a ltac:(
      intros Hin; members; try absurd_stretch; simplify_eq;
      (split; [done|]); (split; [done|]); (split; [done|]);
      first
        [ left; (split; [by apply String.eqb_eq|]); (split; [done|]);
          intros Hfd; members; try absurd_stretch; simplify_eq
        | right; (split; [by apply String.eqb_eq|]); (split; [done|]);
          eexists; (split; [done|]); (split; [done|]);
          repeat first [by left | right] ]).
Qed.

(** X20: a shared folder that cannot be created does not make [Create]
    fail: whatever [CreateSharedFolder] answers, [Create] ends the same
    way; a [Create] that succeeds has tried every configured folder, in
    the order of the configuration, and a failure it logs is the
    answer to the creation of a configured folder. *)
Theorem Create_outlives_shared_folder_failures Join bits (cfg : Config)
    (a : CreateAnswers) (answer : string -> option error) :
  (Create Join bits cfg (with_CreateSharedFolder a answer)).2
  = (Create Join bits cfg a).2
  /\ (forall p,
        (Create Join bits cfg a).2 = Next p ->
        omap folder_attempt (Create Join bits cfg a).1
        = map sf_name (cfg_shared_folders cfg))
  /\ (forall name e,
        Log_SharedFolderFailed name e ∈ (Create Join bits cfg a).1 ->
        ca_CreateSharedFolder a name = Some e
        /\ name ∈ map sf_name (cfg_shared_folders cfg)).
Proof.
  split; [|split].
  - unfold with_CreateSharedFolder, Create, chooseDisk. simpl.
    walk_Create a ltac:(done).
  - intros p.
    walk_Create a ltac:(
      intros Hflow;
      first [ discriminate
            | simpl;
              rewrite !omap_app, folder_attempts_guiSettings,
                folder_attempts_createSharedFolders;
              simpl; by rewrite app_nil_r ]).
  - intros name e.
    walk_Create a ltac:(
      intros Hin; members; try absurd_stretch;
      first [ by apply createSharedFolders_failed | by simplify_eq ]).
Qed.

(** X21: [Create] sets the host key of the machine only to a configured
    host key that is not empty, and hides the menu bar only when the
    configuration turns [menubar] off. *)
Theorem Create_sets_only_configured_ui_options Join bits (cfg : Config)
    (a : CreateAnswers) :
  (forall v,
      Machine_SetExtraData "GUI/Input/HostKey" v
      ∈ (Create Join bits cfg a).1 ->
      v = cfg_host_key cfg /\ v <> "")
  /\ (forall v,
        VBox_SetExtraData "GUI/Customizations" v
        ∈ (Create Join bits cfg a).1 ->
        v = "noMenuBar" /\ cfg_menubar cfg = false).
Proof.
  split; intros v.
  - walk_Create a ltac:(
      intros Hin; members;
      first [ by apply guiSettings_host_key
            | absurd_stretch
            | by simplify_eq ]).
  - walk_Create a ltac:(
      intros Hin; members;
      first [ by apply guiSettings_menubar
            | absurd_stretch
            | by simplify_eq ]).
Qed.

(** * Concrete runs, continued *)

(** The properties of [after], read a little later: other timestamps,
    the same values. *)
Definition after_again : list GuestProperty :=
  [ mkGuestProperty "same" "s" 32 "";
    mkGuestProperty "ver" "1" 31 "TRANSIENT";
    mkGuestProperty "env" "staging" 30 "" ].

(** A machine that keeps running while only timestamps and flags of its
    properties move. *)
Definition only_timestamps_move : PollScript :=
  {| initial_GetState := Ok MachineState_Running;
     initial_EnumerateGuestProperties := Ok after;
     poll_iteration := fun _ => polled MachineState_Running after_again |}.

Lemma same_values_fmap (m1 m2 : gmap string GuestProperty) :
  Value <$> m1 = Value <$> m2 -> same_values m1 m2.
Proof.
  intros Heq k. by rewrite <- !lookup_fmap, Heq.
Qed.

(** The enumeration that fails in [already_off_enumeration_fails] is
    where the error of that run comes from. *)
Lemma polling_error_provenance_witness :
  initial_GetState already_off_enumeration_fails = Err "session closed"
  \/ ((exists state,
         initial_GetState already_off_enumeration_fails = Ok state)
      /\ initial_EnumerateGuestProperties already_off_enumeration_fails
         = Err "session closed")
  \/ (exists i,
        (i < 1)%nat
        /\ poll_EnumerateGuestProperties
             (poll_iteration already_off_enumeration_fails i)
           = Err "session closed"
        /\ exists state,
             poll_GetState (poll_iteration already_off_enumeration_fails i)
             = Ok state).
Proof.
  apply (polling_error_provenance AB already_off_enumeration_fails 1
           "session closed").
  reflexivity.
Defined.

(** After its first iteration on [shutdown_polling] the loop carries
    the state and the properties of that iteration. *)
Lemma polling_carries_witness :
  exists state l,
    poll_GetState (poll_iteration shutdown_polling 0) = Ok state
    /\ poll_EnumerateGuestProperties (poll_iteration shutdown_polling 0)
       = Ok l
    /\ {| previousState := MachineState_Running;
          previousProperties := propertyMapOf before |}
       = {| previousState := state; previousProperties := propertyMapOf l |}.
Proof.
  apply (polling_carries_the_last_reading AB shutdown_polling 0).
  vm_compute. reflexivity.
Defined.

(** Three iterations over properties of which only timestamps and
    flags move: three sleeps and nothing else. *)
Lemma polling_silence_witness :
  Forall (fun c => c = Sleep (250 * Millisecond))
         (pollingLoop AB only_timestamps_move 3).1.
Proof.
  apply (polling_is_silent_while_values_stay AB only_timestamps_move 3 after);
    [reflexivity|].
  intros i _. split; [apply listed_valid|]. split; [apply listed_valid|].
  intros l [= <-]. apply same_values_fmap. vm_compute. reflexivity.
Defined.

(** The diff of [before] and [after] for two observers: two entries
    reported and one gone, six calls. *)
Lemma polling_diff_count_witness :
  length (diffProperties AB listed listed (propertyMapOf before)
                         (propertyMapOf after))
  = (length (eventHandlers AB)
     * (length (filter (reported (propertyMapOf before))
                       (map_to_list (propertyMapOf after)))
        + length (filter (gone (propertyMapOf after))
                         (map_to_list (propertyMapOf before)))))%nat
  /\ (length (eventHandlers AB)
      * (length (filter (reported (propertyMapOf before))
                        (map_to_list (propertyMapOf after)))
         + length (filter (gone (propertyMapOf after))
                          (map_to_list (propertyMapOf before)))))%nat
     = 6%nat.
Proof.
  split.
  - apply (polling_diff_call_count AB listed listed); apply listed_valid.
  - vm_compute. reflexivity.
Defined.

(** The notification of an iteration that was delivered a
    guest-property event. *)
Lemma event_notification_witness :
  exists ev state,
    pas_GetEvent (delivered EventType_OnGuestPropertyChanged
                            MachineState_Running) = Ok (Some ev)
    /\ ev_GetType ev = Ok EventType_OnGuestPropertyChanged
    /\ pas_GetState (delivered EventType_OnGuestPropertyChanged
                               MachineState_Running) = Ok state
    /\ ev_NewGuestPropertyChangedEvent ev = None.
Proof.
  apply (event_loop_notifies_only_after_state_query AB
           (delivered EventType_OnGuestPropertyChanged MachineState_Running)
           (OnGuestPropertyChanged "A" "" "" 0 ""));
    [|reflexivity].
  right. left.
Defined.




(** A stand-in for [path.Join] on paths that need no cleaning. *)
Definition slash_join (parts : list string) : string :=
  String.concat "/" parts.

Definition all_released : ReleaseAnswers :=
  {| rel_UnlockMachine := None;
     rel_Controller_Release := None;
     rel_Unregister := Ok ["raw.vmdk"];
     rel_DeleteConfig := None;
     rel_WaitForCompletion := None;
     rel_Machine_Release := None |}.

Definition started : StartAnswers :=
  {| sa_Launch := None;
     sa_WaitForCompletion := None;
     sa_GetConsole := Ok "console" |}.

(** A privileged run to the power-off of the machine, in polling
    mode. *)
Definition whole_run : RootAnswers :=
  {| ra_data_path := "/data";
     ra_OpenFile := None;
     ra_CreateFile := None;
     ra_IsAdmin := true;
     ra_Executable := Ok "/usr/bin/vlaunch";
     ra_RunAsRoot := None;
     ra_keepVM := false;
     ra_Start := started;
     ra_SupportPassiveListener := false;
     ra_passive := shutdown_events;
     ra_polling := shutdown_polling;
     ra_Release := all_released |}.

(** The same run, when the machine cannot be launched and then cannot
    be unlocked either. *)
Definition failed_start : RootAnswers :=
  {| ra_data_path := "/data";
     ra_OpenFile := Some "read-only file system";
     ra_CreateFile := None;
     ra_IsAdmin := true;
     ra_Executable := Ok "/usr/bin/vlaunch";
     ra_RunAsRoot := None;
     ra_keepVM := false;
     ra_Start := {| sa_Launch := Some "no such machine";
                    sa_WaitForCompletion := None;
                    sa_GetConsole := Ok "console" |};
     ra_SupportPassiveListener := false;
     ra_passive := shutdown_events;
     ra_polling := shutdown_polling;
     ra_Release := {| rel_UnlockMachine := Some "not locked";
                      rel_Controller_Release := None;
                      rel_Unregister := Ok [];
                      rel_DeleteConfig := None;
                      rel_WaitForCompletion := None;
                      rel_Machine_Release := None |} |}.

Definition a_config : Config :=
  {| cfg_data_path := "/data";
     cfg_disk_type := "raw";
     cfg_disk_location := "";
     cfg_distro_type := "Linux_64";
     cfg_cpus := 0;
     cfg_ram := 0;
     cfg_min_ram := 512;
     cfg_host_key := "";
     cfg_menubar := true;
     cfg_shared_folders :=
       [ {| sf_name := "home"; sf_path := "/home"; sf_persistent := true;
            sf_automount := true |} ] |}.

Definition all_created : CreateAnswers :=
  {| ca_Init := None;
     ca_FindDevice := Ok "/dev/sdb";
     ca_RelativeRawVMDK := false;
     ca_CreateRawVMDK := None;
     ca_OpenMedium := Ok "dd";
     ca_CreateMachine := Ok "machine";
     ca_NumCPU := 8;
     ca_GetFreeRam := Ok 8589934592;
     ca_SetVramSize := None;
     ca_GetBiosSettings := None;
     ca_GetNetworkAdapter := None;
     ca_SetAdapterType := None;
     ca_CreateSharedFolder := fun _ => Some "no such directory";
     ca_AddStorageController := Ok "controller";
     ca_SetType := None;
     ca_SaveSettings := None;
     ca_Register := None;
     ca_Session_Init := Ok "session";
     ca_LockMachine := None;
     ca_GetMachine := None;
     ca_AttachDevice := None;
     ca_Session_SaveSettings := None;
     ca_UnlockMachine := None |}.

(** The command from the opening of its log to the closing of it. *)
Example command_whole_run :
  RootCmd_Run (Handler := string) slash_join whole_run 3
  = ([ OpenFile "/data/vlaunch.log";
       SetOutput [LogFile "/data/vlaunch.log"; Stdout; Stderr]; IsAdmin;
       OfStart (Launch "gui" ""); OfStart (Launch_WaitForCompletion 50000);
       OfStart Launch_Progress_Release; OfStart GetConsole;
       OfRun (Sleep 250000000); OfRun (Sleep 250000000);
       OfRelease UnlockMachine; OfRelease (Sleep 1000000000);
       OfRelease Controller_Release;
       OfRelease (Unregister CleanupMode_Full);
       OfRelease (DeleteConfig ["raw.vmdk"]);
       OfRelease (WaitForCompletion (-1)); OfRelease Machine_Release;
       OfRelease Progress_Release; CloseFile "/data/vlaunch.log" ],
     Some Returns).
Proof. vm_compute. reflexivity. Qed.

(** The monitor of the command is still in its loop after two
    iterations: nothing is released yet, nothing is closed. *)
Example command_still_running :
  RootCmd_Run (Handler := string) slash_join whole_run 2
  = ([ OpenFile "/data/vlaunch.log";
       SetOutput [LogFile "/data/vlaunch.log"; Stdout; Stderr]; IsAdmin;
       OfStart (Launch "gui" ""); OfStart (Launch_WaitForCompletion 50000);
       OfStart Launch_Progress_Release; OfStart GetConsole;
       OfRun (Sleep 250000000); OfRun (Sleep 250000000) ],
     None).
Proof. vm_compute. reflexivity. Qed.

Example command_failed_start :
  RootCmd_Run (Handler := string) slash_join failed_start 3
  = ([ OpenFile "/data/vlaunch.log"; CreateFile "/tmp/vlaunch.log";
       SetOutput [LogFile "/tmp/vlaunch.log"; Stdout; Stderr]; IsAdmin;
       OfStart (Launch "gui" "");
       LogPanic "Failed to start vm: no such machine";
       OfRelease UnlockMachine;
       LogPanic "Failed to release vm: not locked";
       CloseFile "/tmp/vlaunch.log" ],
     Some (Panics [ "Failed to start vm: no such machine";
                    "Failed to release vm: not locked" ])).
Proof. vm_compute. reflexivity. Qed.

(** The start that fails in [failed_start], followed by the release
    that fails. *)
Lemma command_failed_start_witness :
  run_calls (RootCmd_Run (Handler := string) slash_join failed_start 3).1 = []
  /\ (RootCmd_Run (Handler := string) slash_join failed_start 3).2
     = Some (Panics [ "Failed to start vm: no such machine";
                      "Failed to release vm: not locked" ]).
Proof.
  apply (command_after_failed_start (Handler := string) slash_join
           failed_start 3 "no such machine"); reflexivity.
Defined.

(** A machine on a raw disk with four of eight CPUs and two thirds of
    8 GiB, whose one shared folder cannot be created. *)
Example Create_a_machine :
  (Create slash_join 64 a_config all_created).2
  = Next {| pv_machine := "machine"; pv_controller := "controller";
            pv_session := "session"; pv_dd := "dd" |}
  /\ take 9 (Create slash_join 64 a_config all_created).1
     = [ Init; FindDevice; Log_CreatingRawVMDK "/dev/sdb";
         CreateRawVMDK "/data/raw.vmdk" "/dev/sdb" true false;
         OpenMedium "/data/raw.vmdk" DeviceType_HardDisk
                    AccessMode_ReadWrite false;
         CreateMachine "/data" "ufo" "Linux_64" "";
         SetCPUCount 4; Log_SettingRAM 5461; SetMemorySize 5461 ]
  /\ drop 32 (Create slash_join 64 a_config all_created).1
     = [ CreateSharedFolder "home" "/home" true true;
         Log_SharedFolderFailed "home" "no such directory";
         AddStorageController "IDE" StorageBus_Ide;
         SetType StorageControllerType_Ich6; SaveSettings; Register;
         Session_Init; LockMachine LockType_Write; GetMachine;
         AttachDevice "IDE" 0 0 DeviceType_HardDisk "dd";
         Session_SaveSettings; Session_UnlockMachine ].
Proof. vm_compute. repeat split; reflexivity. Qed.

(** A disk type that is neither [raw] nor [vdi]. *)
Example Create_rejects_a_disk_type :
  Create slash_join 64
    {| cfg_data_path := "/data"; cfg_disk_type := "qcow2";
       cfg_disk_location := "/disk.qcow2"; cfg_distro_type := "Linux_64";
       cfg_cpus := 2; cfg_ram := 1024; cfg_min_ram := 512;
       cfg_host_key := ""; cfg_menubar := true;
       cfg_shared_folders := [] |}
    all_created
  = ([Init], Return (Some "Invalid disk type 'qcow2'")).
Proof. vm_compute. reflexivity. Qed.
